(** * Swappy agent (agent.ts): retry helper, result normalizer, vector_search tool

    A shallow embedding of the original logic of [src/agent.js]:
    - [retryWithBackoff], the retry helper for rate-limited calls;
    - the per-hit normalisation loop of the [vector_search] tool;
    - the [vector_search] tool itself, with its [try]/[catch] and the effects
      it performs on the collection, the embeddings client and the console;
    - the functions of the agent graph ([shouldContinue], [callModel], the
      reducer of the messages), [callAgent] around the graph, and the two
      chat routes of the server.

    JavaScript values are modelled by the inductive [jsval]; effects are
    modelled by a small trace-and-exception monad [Eff]. *)

From Stdlib Require Import String Ascii List ZArith Bool Lia.
From Stdlib Require Import DecimalString.
Import ListNotations.

Local Open Scope string_scope.
Local Open Scope Z_scope.

#[local] Set Warnings "-register-all".

(* ===================================================================== *)
(** ** JavaScript values *)
(* ===================================================================== *)

Module JS.

(** Numbers.  Integral doubles are carried as [Z] (the ones JavaScript
    prints in plain decimal, below 10^21 in magnitude); a finite non-integral
    double is identified by its canonical decimal rendering (it is never
    zero).  [-0] behaves as [NInt 0] for everything the program does with
    it (truthiness, [===], string conversion). *)
Inductive jsnum : Type :=
| NInt (z : Z)
| NFrac (repr : string)
| NInf (negative : bool)
| NNaN.

(** Values.  An object is the ordered list of its own properties; a later
    lookup returns the first binding of a key. *)
Inductive jsval : Type :=
| JUndefined
| JNull
| JBool (b : bool)
| JNum (n : jsnum)
| JStr (s : string)
| JArr (items : list jsval)
| JObj (fields : list (string * jsval)).

Definition num (z : Z) : jsval := JNum (NInt z).

(** [{}] *)
Definition empty_object : jsval := JObj [].

(** ToBoolean *)
Definition truthy (v : jsval) : bool :=
  match v with
  | JUndefined | JNull => false
  | JBool b => b
  | JNum (NInt z) => negb (z =? 0)
  | JNum NNaN => false
  | JNum _ => true
  | JStr s => negb (String.eqb s "")
  | JArr _ | JObj _ => true
  end.

Definition nullish (v : jsval) : bool :=
  match v with
  | JUndefined | JNull => true
  | _ => false
  end.

(** [a ?? b] (both operands of every use in the program are effect free) *)
Definition nc (a b : jsval) : jsval := if nullish a then b else a.

Fixpoint lookup (k : string) (fields : list (string * jsval)) : jsval :=
  match fields with
  | [] => JUndefined
  | (k', v) :: rest => if String.eqb k k' then v else lookup k rest
  end.

(** [v === "s"] against a string literal *)
Definition is_str (v : jsval) (s : string) : bool :=
  match v with
  | JStr s' => String.eqb s' s
  | _ => false
  end.

(** [v === z] against an integer literal *)
Definition is_num (v : jsval) (z : Z) : bool :=
  match v with
  | JNum (NInt z') => z' =? z
  | _ => false
  end.

(** Number-to-string conversion *)
Definition string_of_Z (z : Z) : string := NilZero.string_of_int (Z.to_int z).

Definition num_to_string (n : jsnum) : string :=
  match n with
  | NInt z => string_of_Z z
  | NFrac repr => repr
  | NInf false => "Infinity"
  | NInf true => "-Infinity"
  | NNaN => "NaN"
  end.

Fixpoint join (sep : string) (parts : list string) : string :=
  match parts with
  | [] => ""
  | [p] => p
  | p :: rest => p ++ sep ++ join sep rest
  end.

(** The text ToString yields, where it yields one (see [convertible]
    below).  A plain object converts to ["[object Object]"]; an array
    converts to its elements joined by commas, [null] and [undefined]
    elements to the empty string. *)
Fixpoint to_string (v : jsval) : string :=
  match v with
  | JUndefined => "undefined"
  | JNull => "null"
  | JBool true => "true"
  | JBool false => "false"
  | JNum n => num_to_string n
  | JStr s => s
  | JArr items =>
      join "," (map (fun x => if nullish x then "" else to_string x) items)
  | JObj _ => "[object Object]"
  end.

(** Whether ToString yields a text.  The values here hold no function, so an
    object with an own property [toString] has no callable conversion and
    ToString throws a TypeError on it; an array converts each element that
    is neither [undefined] nor [null], and fails when one of them does. *)
Fixpoint convertible (v : jsval) : bool :=
  match v with
  | JArr items => forallb (fun x => nullish x || convertible x) items
  | JObj fields => negb (existsb (fun kv => String.eqb (fst kv) "toString") fields)
  | _ => true
  end.

End JS.
Export JS.

(* ===================================================================== *)
(** ** Effects: a trace of observable actions, and exceptions *)
(* ===================================================================== *)

(** What the code does to the outside world, in order. *)
Inductive event : Type :=
| EvToolLog (query : string) (n : Z)       (* console.log of the tool *)
| EvCountDocuments                         (* collection.countDocuments() *)
| EvNewEmbeddings                          (* new GoogleGenerativeAIEmbeddings *)
| EvNewVectorStore                         (* new MongoDBAtlasVectorSearch *)
| EvInvoke                                 (* one call of the retried operation *)
| EvRetryLog (delay attempt : Z)           (* console.log of the retry helper *)
| EvSleep (delay : Z)                      (* setTimeout(r, delay) awaited *)
| EvToolError (err : jsval).               (* console.error of the tool *)

(** The result of running a piece of code: a value, or a thrown value. *)
Inductive outcome (A : Type) : Type :=
| Returned (a : A)
| Thrown (err : jsval).
Arguments Returned {A} a.
Arguments Thrown {A} err.

Definition Eff (A : Type) : Type := (list event * outcome A)%type.

Definition ret {A} (a : A) : Eff A := ([], Returned a).
Definition throw {A} (err : jsval) : Eff A := ([], Thrown err).
Definition emit (e : event) : Eff unit := ([e], Returned tt).

Definition bind {A B} (m : Eff A) (f : A -> Eff B) : Eff B :=
  match m with
  | (t, Returned a) => let (t', r) := f a in ((t ++ t')%list, r)
  | (t, Thrown err) => (t, Thrown err)
  end.

(** [try { m } catch (err) { handler err }] *)
Definition try_catch {A} (m : Eff A) (handler : jsval -> Eff A) : Eff A :=
  match m with
  | (t, Returned a) => (t, Returned a)
  | (t, Thrown err) => let (t', r) := handler err in ((t ++ t')%list, r)
  end.

(** An awaited call whose outcome the environment decides. *)
Definition perform {A} (e : event) (result : outcome A) : Eff A := ([e], result).

Declare Scope eff_scope.
Delimit Scope eff_scope with eff.
Notation "x <- m ;; k" := (bind m (fun x => k))
  (at level 100, m at next level, right associativity) : eff_scope.
Notation "m ;;; k" := (bind m (fun _ => k))
  (at level 100, right associativity) : eff_scope.
Local Open Scope eff_scope.

Definition trace {A} (m : Eff A) : list event := fst m.
Definition result {A} (m : Eff A) : outcome A := snd m.

(** Number of calls of the retried operation recorded in a trace. *)
Definition is_invoke (e : event) : bool :=
  match e with EvInvoke => true | _ => false end.
Definition invocations (t : list event) : nat := length (filter is_invoke t).

(* ===================================================================== *)
(** ** retryWithBackoff *)
(* ===================================================================== *)

(** [new Error(msg)] *)
Definition new_Error (msg : string) : jsval := JObj [("message", JStr msg)].

(** [err?.field] *)
Definition opt_get (v : jsval) (k : string) : jsval :=
  match v with
  | JObj fields => lookup k fields
  | _ => JUndefined
  end.

(** [err?.status === 429 || err?.code === 429] *)
Definition isRate (err : jsval) : bool :=
  is_num (opt_get err "status") 429 || is_num (opt_get err "code") 429.

(** [Math.min(1000 * Math.pow(2, attempt), 30000)] *)
Definition backoff_delay (attempt : Z) : Z := Z.min (1000 * 2 ^ attempt) 30000.

Section Retry.
Context {T : Type}.

(** The operation [fn]: an asynchronous thunk.  It is given by the outcome
    of each of its calls, numbered from 0 in call order. *)
Definition operation : Type := nat -> outcome T.

(** The body of the [for] loop, over the values [attempt] still has to take;
    [calls] is the number of calls of [fn] made so far. *)
Fixpoint retry_loop (fn : operation) (maxRetries : Z) (attempts : list Z)
         (calls : nat) : Eff T :=
  match attempts with
  | [] => throw (new_Error "Max retries exceeded")
  | attempt :: rest =>
      try_catch
        (perform EvInvoke (fn calls))
        (fun err =>
           if isRate err && (attempt <? maxRetries) then
             let delay := backoff_delay attempt in
             emit (EvRetryLog delay attempt) ;;;
             emit (EvSleep delay) ;;;
             retry_loop fn maxRetries rest (S calls)
           else throw err)
  end.

(** [for (let attempt = 1; attempt <= maxRetries; attempt++)] *)
Definition attempts_upto (maxRetries : Z) : list Z :=
  map Z.of_nat (seq 1 (Z.to_nat maxRetries)).

Definition retryWithBackoff (fn : operation) (maxRetries : Z) : Eff T :=
  retry_loop fn maxRetries (attempts_upto maxRetries) 0.

End Retry.

(* ===================================================================== *)
(** ** Property access and the string methods the normalizer calls *)
(* ===================================================================== *)

(** [new TypeError(msg)] *)
Definition new_TypeError (msg : string) : jsval :=
  JObj [("name", JStr "TypeError"); ("message", JStr msg)].

(** [v.k]: reading a property of [undefined] or [null] throws; reading a
    property a value does not have gives [undefined].  (None of the property
    names the program reads is a built-in of strings, numbers or arrays.) *)
Definition get (v : jsval) (k : string) : Eff jsval :=
  if nullish v then throw (new_TypeError "Cannot read properties of undefined")
  else ret (opt_get v k).

(** [v?.k] *)
Definition get_opt (v : jsval) (k : string) : Eff jsval :=
  if nullish v then ret JUndefined else get v k.

(** [a ?? b], the right operand evaluated only when the left one is nullish *)
Definition coalesce (a b : Eff jsval) : Eff jsval :=
  x <- a ;; if nullish x then b else ret x.
Notation "a ?? b" := (coalesce a b) (at level 60, right associativity) : eff_scope.

(** The TypeError of a failed conversion to a string *)
Definition conversion_error : jsval :=
  new_TypeError "Cannot convert object to primitive value".

(** [`${v}`]: the conversion a template literal applies to a value read from
    a document.  It throws where [convertible] fails. *)
Definition ToString (v : jsval) : Eff string :=
  if convertible v then ret (to_string v) else throw conversion_error.

(** [v.slice(0, n)]: defined on strings and arrays *)
Definition call_slice (v : jsval) (n : nat) : Eff jsval :=
  match v with
  | JStr s => ret (JStr (substring 0 n s))
  | JArr items => ret (JArr (firstn n items))
  | JUndefined | JNull =>
      throw (new_TypeError "Cannot read properties of undefined")
  | _ => throw (new_TypeError "slice is not a function")
  end.

(** [v?.slice(0, n)] *)
Definition call_slice_opt (v : jsval) (n : nat) : Eff jsval :=
  if nullish v then ret JUndefined else call_slice v n.

Definition newline : ascii := ascii_of_nat 10.

(** [s.split(sep)] for a one-character separator *)
Fixpoint split_on (sep : ascii) (s : string) : list string :=
  match s with
  | EmptyString => [""]
  | String c rest =>
      if Ascii.eqb c sep then "" :: split_on sep rest
      else match split_on sep rest with
           | [] => [String c ""]
           | p :: ps => String c p :: ps
           end
  end.

(** [v.split("\n")]: defined on strings only *)
Definition call_split_lines (v : jsval) : Eff (list string) :=
  match v with
  | JStr s => ret (split_on newline s)
  | JUndefined | JNull =>
      throw (new_TypeError "Cannot read properties of undefined")
  | _ => throw (new_TypeError "split is not a function")
  end.

(** White space and line terminators among the code units below 256 *)
Definition is_space (c : ascii) : bool :=
  let n := nat_of_ascii c in
  ((9 <=? n) && (n <=? 13) || (n =? 32) || (n =? 160))%nat.

Fixpoint trim_start (s : string) : string :=
  match s with
  | EmptyString => ""
  | String c rest => if is_space c then trim_start rest else s
  end.

Fixpoint trim_end (s : string) : string :=
  match s with
  | EmptyString => ""
  | String c rest =>
      let rest' := trim_end rest in
      if is_space c && String.eqb rest' "" then "" else String c rest'
  end.

(** [s.trim()] *)
Definition trim (s : string) : string := trim_end (trim_start s).

(* ===================================================================== *)
(** ** The result normalizer (body of the loop over [rawResults]) *)
(* ===================================================================== *)

(** [const meta = doc.metadata ?? {}] *)
Definition resolve_meta (doc : jsval) : Eff jsval :=
  get doc "metadata" ?? ret empty_object.

(** [const source = meta.source ?? docAny.source ?? "unknown"] *)
Definition resolve_source (doc meta : jsval) : Eff jsval :=
  get meta "source" ?? get doc "source" ?? ret (JStr "unknown").

(** [cond ? ` label${v}tail` : ""] with [cond] the value [v] itself: the
    value is converted only when it is truthy *)
Definition opt_suffix (label : string) (v : jsval) (tail : string) : Eff string :=
  if truthy v then (s <- ToString v ;; ret (label ++ s ++ tail)) else ret "".

(** Locals of the project-record branch *)
Record project_locals : Type := {
  projectName : jsval;
  location : jsval;
  price : jsval;
  sequestration : jsval;
  stock : jsval
}.

Definition resolve_project (doc meta : jsval) : Eff project_locals :=
  raw <- (get meta "raw"
          ?? (m <- get doc "metadata" ;; get_opt m "raw")
          ?? get doc "raw"
          ?? ret empty_object) ;;
  projectName <- (get raw "projectName"
                  ?? get raw "ProjectName"
                  ?? get meta "projectName"
                  ?? (pc <- get doc "pageContent" ;; call_slice_opt pc 80)) ;;
  location <- (get raw "location" ?? get raw "Location" ?? get meta "location") ;;
  price <- (get raw "price" ?? get raw "Price") ;;
  sequestration <- (get raw "carbonSequestration"
                    ?? get raw "carbonSequestration"
                    ?? get raw "sequestration") ;;
  stock <- (get raw "stock" ?? get raw "Stock") ;;
  ret {| projectName := projectName; location := location; price := price;
         sequestration := sequestration; stock := stock |}.

(** The template literal of the project-record branch, its substitutions
    converted from left to right *)
Definition project_summary (l : project_locals) : Eff string :=
  name <- ToString (projectName l) ;;
  at_location <- opt_suffix " | Location: " (location l) "" ;;
  at_sequestration <- opt_suffix " | Est. sequestration: " (sequestration l) "" ;;
  at_price <- opt_suffix " | Price: " (price l) "" ;;
  at_stock <- opt_suffix " | Stock: " (stock l) "" ;;
  ret ("Project: " ++ name ++ at_location ++ at_sequestration ++ at_price ++ at_stock).

(** Locals of the tabular-row branch *)
Record row_locals : Type := {
  nama : jsval;
  luas : jsval;
  karbon : jsval;
  rating : jsval
}.

Definition resolve_row (doc meta : jsval) : Eff row_locals :=
  row <- (get meta "row" ?? get doc "row" ?? ret empty_object) ;;
  nama <- (get row "nama_lokasi"
           ?? get row "nama_lokasi"
           ?? get row "name"
           ?? (pc <- get doc "pageContent" ;; call_slice_opt pc 80)) ;;
  luas <- (get row "luas_ha" ?? get row "luas" ?? get row "area") ;;
  karbon <- (get row "karbon_terserap" ?? get row "karbon" ?? get row "carbon") ;;
  rating <- (get row "rating_ulasan" ?? get row "rating") ;;
  ret {| nama := nama; luas := luas; karbon := karbon; rating := rating |}.

(** The template literal of the tabular-row branch *)
Definition row_summary (l : row_locals) : Eff string :=
  name <- ToString (nama l) ;;
  at_area <- opt_suffix " | Area: " (luas l) " ha" ;;
  at_carbon <- opt_suffix " | Carbon captured: " (karbon l) "" ;;
  at_rating <- opt_suffix " | Rating: " (rating l) "" ;;
  ret ("Location: " ++ name ++ at_area ++ at_carbon ++ at_rating).

(** [(doc.pageContent ?? "").split("\n").slice(0, 3).join(" ").trim()] *)
Definition markdown_summary (doc : jsval) : Eff jsval :=
  content <- (get doc "pageContent" ?? ret (JStr "")) ;;
  lines <- call_split_lines content ;;
  let snippet := trim (join " " (firstn 3 lines)) in
  ret (JStr ("Doc: " ++ snippet)).

(** [(doc.pageContent ?? "").slice(0, 150)] *)
Definition fallback_summary (doc : jsval) : Eff jsval :=
  content <- (get doc "pageContent" ?? ret (JStr "")) ;;
  call_slice content 150.

(** [source === "dummyProjects" || meta.raw], as a condition *)
Definition is_project (source meta : jsval) : Eff bool :=
  if is_str source "dummyProjects" then ret true
  else (r <- get meta "raw" ;; ret (truthy r)).

(** [source === "csv" || meta.row], as a condition *)
Definition is_row (source meta : jsval) : Eff bool :=
  if is_str source "csv" then ret true
  else (r <- get meta "row" ;; ret (truthy r)).

(** The [if] / [else if] chain that fills [summary] *)
Definition compose_summary (doc meta source : jsval) : Eff jsval :=
  p <- is_project source meta ;;
  if p then (l <- resolve_project doc meta ;;
             summary <- project_summary l ;;
             ret (JStr summary))
  else
    r <- is_row source meta ;;
    if r then (l <- resolve_row doc meta ;;
               summary <- row_summary l ;;
               ret (JStr summary))
    else if is_str source "markdown" then markdown_summary doc
    else fallback_summary doc.

(** [doc.metadata?._id ?? docAny._id ?? meta._id] *)
Definition resolve_id (doc meta : jsval) : Eff jsval :=
  (m <- get doc "metadata" ;; get_opt m "_id") ?? get doc "_id" ?? get meta "_id".

(** A raw hit: the [[doc, score]] pair the vector store returns. *)
Definition hit : Type := (jsval * jsval)%type.

(** One iteration of the loop: the record pushed onto [normalized]. *)
Definition normalize_hit (r : hit) : Eff jsval :=
  let (doc, score) := r in
  meta <- resolve_meta doc ;;
  source <- resolve_source doc meta ;;
  summary <- compose_summary doc meta source ;;
  id <- resolve_id doc meta ;;
  ret (JObj [("id", id); ("score", score); ("source", source);
             ("summary", summary); ("full", doc)]).

(** [for (const r of rawResults) { ...; normalized.push(...) }] *)
Fixpoint normalize_all (rawResults : list hit) : Eff (list jsval) :=
  match rawResults with
  | [] => ret []
  | r :: rest =>
      x <- normalize_hit r ;;
      xs <- normalize_all rest ;;
      ret (x :: xs)
  end.

(* ===================================================================== *)
(** ** The vector_search tool *)
(* ===================================================================== *)

(** The text the tool returns is [JSON.stringify(value)]; it is represented
    by the value that was serialised.  (Values here are finite trees, on
    which the serialisation cannot fail.) *)
Inductive json_text : Type :=
| JSON_stringify (value : jsval).

(** The collaborators of one tool call, each given by what it answers:
    the collection's document count, the two constructors, and the
    similarity search (an operation in the sense of [retryWithBackoff],
    for the given query and result count). *)
Record environment : Type := {
  countDocuments : outcome jsval;
  newEmbeddings : outcome unit;
  newVectorStore : outcome unit;
  similaritySearchWithScore : string -> Z -> @operation (list hit)
}.

(** [{ error: "empty_db", message: ..., count: 0 }] *)
Definition empty_db_envelope : jsval :=
  JObj [("error", JStr "empty_db");
        ("message", JStr "No indexed documents found");
        ("count", num 0)].

(** [{ results: normalized, searchType: "vector", query, count }] *)
Definition success_envelope (normalized : list jsval) (query : string) : jsval :=
  JObj [("results", JArr normalized);
        ("searchType", JStr "vector");
        ("query", JStr query);
        ("count", num (Z.of_nat (length normalized)))].

(** [{ error: "search_error", details: err?.message ?? String(err), query }].
    [String(err)] is applied to what a collaborator threw and only when it
    has no message: a primitive or a bare object, on which the conversion
    yields its text. *)
Definition search_error_envelope (err : jsval) (query : string) : jsval :=
  JObj [("error", JStr "search_error");
        ("details", nc (opt_get err "message") (JStr (to_string err)));
        ("query", JStr query)].

(** [n = 6] in the parameter list of the tool *)
Definition n_or_default (n : option Z) : Z :=
  match n with Some k => k | None => 6 end.

(** The [try] block *)
Definition vectorSearchTool_body (env : environment) (query : string) (n : Z)
  : Eff json_text :=
  emit (EvToolLog query n) ;;;
  total <- perform EvCountDocuments (countDocuments env) ;;
  if is_num total 0 then ret (JSON_stringify empty_db_envelope)
  else
    perform EvNewEmbeddings (newEmbeddings env) ;;;
    perform EvNewVectorStore (newVectorStore env) ;;;
    (* retryWithBackoff(() => ...), with the default maxRetries = 3 *)
    rawResults <- retryWithBackoff (similaritySearchWithScore env query n) 3 ;;
    normalized <- normalize_all rawResults ;;
    ret (JSON_stringify (success_envelope normalized query)).

(** [async ({ query, n = 6 }) => { try { ... } catch (err) { ... } }] *)
Definition vectorSearchTool (env : environment) (query : string) (n : option Z)
  : Eff json_text :=
  let n := n_or_default n in
  try_catch
    (vectorSearchTool_body env query n)
    (fun err =>
       emit (EvToolError err) ;;;
       ret (JSON_stringify (search_error_envelope err query))).

(** Whether an object value has an own property [k]. *)
Definition has_field (v : jsval) (k : string) : bool :=
  match v with
  | JObj fields => existsb (fun kv => String.eqb (fst kv) k) fields
  | _ => false
  end.

(** The property names of an object value, in order. *)
Definition field_names (v : jsval) : list string :=
  match v with
  | JObj fields => map fst fields
  | _ => []
  end.

(* ===================================================================== *)
(** ** Vocabulary of the statements *)
(* ===================================================================== *)

(** The trace of [k] rate-limited attempts, the first one numbered [a]:
    each is a call followed by the log line and the sleep. *)
Fixpoint retries_trace (a k : nat) : list event :=
  match k with
  | O => []
  | S k' =>
      let attempt := Z.of_nat a in
      EvInvoke :: EvRetryLog (backoff_delay attempt) attempt
               :: EvSleep (backoff_delay attempt)
               :: retries_trace (S a) k'
  end.

(** The outcome of a call ends the retry loop: a value, or an error that is
    not retried at this attempt. *)
Definition ends_loop {T} (maxRetries : Z) (o : outcome T) (attempt : Z) : Prop :=
  match o with
  | Returned _ => True
  | Thrown err => isRate err && (attempt <? maxRetries) = false
  end.

(** A document as the vector store hands it over: an object whose
    [pageContent] is a string, or is missing. *)
Definition is_document (doc : jsval) : bool :=
  match doc with
  | JObj fields =>
      match lookup "pageContent" fields with
      | JStr _ | JUndefined | JNull => true
      | _ => false
      end
  | _ => false
  end.

(** The text of a document: [doc.pageContent ?? ""] *)
Definition content_text (doc : jsval) : string :=
  match opt_get doc "pageContent" with
  | JStr s => s
  | _ => ""
  end.

(** The [summary] field of the record a hit is normalised to. *)
Definition summary_of (r : hit) : outcome jsval :=
  match result (normalize_hit r) with
  | Returned rec => Returned (opt_get rec "summary")
  | Thrown err => Thrown err
  end.

(** The hit is handled by the project-record branch, with locals [l]. *)
Definition takes_project_branch (doc : jsval) (l : project_locals) : Prop :=
  exists meta source,
    resolve_meta doc = ret meta /\
    resolve_source doc meta = ret source /\
    is_project source meta = ret true /\
    resolve_project doc meta = ret l.

(** The hit is handled by the tabular-row branch, with locals [l]. *)
Definition takes_row_branch (doc : jsval) (l : row_locals) : Prop :=
  exists meta source,
    resolve_meta doc = ret meta /\
    resolve_source doc meta = ret source /\
    is_project source meta = ret false /\
    is_row source meta = ret true /\
    resolve_row doc meta = ret l.

(** The hit is handled by the final [else] branch. *)
Definition takes_fallback_branch (doc : jsval) : Prop :=
  exists meta source,
    resolve_meta doc = ret meta /\
    resolve_source doc meta = ret source /\
    is_project source meta = ret false /\
    is_row source meta = ret false /\
    is_str source "markdown" = false.

(** The document carries a content text. *)
Definition has_text (doc : jsval) : Prop :=
  exists s, opt_get doc "pageContent" = JStr s.

(** The text of a suffix, and of the two template literals, when every
    conversion succeeds. *)
Definition suffix_text (label : string) (v : jsval) (tail : string) : string :=
  if truthy v then label ++ to_string v ++ tail else "".

Definition project_text (l : project_locals) : string :=
  "Project: " ++ to_string (projectName l)
    ++ suffix_text " | Location: " (location l) ""
    ++ suffix_text " | Est. sequestration: " (sequestration l) ""
    ++ suffix_text " | Price: " (price l) ""
    ++ suffix_text " | Stock: " (stock l) "".

Definition row_text (l : row_locals) : string :=
  "Location: " ++ to_string (nama l)
    ++ suffix_text " | Area: " (luas l) " ha"
    ++ suffix_text " | Carbon captured: " (karbon l) ""
    ++ suffix_text " | Rating: " (rating l) "".

(** A suffix value the template literal can print: falsy (left out) or
    convertible. *)
Definition shown (v : jsval) : bool := negb (truthy v) || convertible v.

(** Every value the template literal of the branch converts is convertible. *)
Definition printable_project (l : project_locals) : bool :=
  convertible (projectName l) && shown (location l) && shown (sequestration l)
  && shown (price l) && shown (stock l).

Definition printable_row (l : row_locals) : bool :=
  convertible (nama l) && shown (luas l) && shown (karbon l) && shown (rating l).

(** Every value the template literal of the hit's branch prints can be
    converted to a string.  (The document-chunk branch and the final branch
    print the content text only.) *)
Definition printable (doc : jsval) : Prop :=
  (forall l, takes_project_branch doc l -> printable_project l = true) /\
  (forall l, takes_row_branch doc l -> printable_row l = true).

(** The value holds no object with an own property [toString], at any depth. *)
Fixpoint plain (v : jsval) : bool :=
  match v with
  | JArr items => forallb plain items
  | JObj fields =>
      forallb (fun kv => negb (String.eqb (fst kv) "toString") && plain (snd kv)) fields
  | _ => true
  end.

(** What the summary of a hit is, given what its template literal yields. *)
Definition summary_from (m : Eff string) : outcome jsval :=
  match result m with
  | Returned s => Returned (JStr s)
  | Thrown err => Thrown err
  end.

(** The three envelopes, field by field. *)
Definition is_empty_db_envelope (v : jsval) : Prop :=
  field_names v = ["error"; "message"; "count"] /\
  opt_get v "error" = JStr "empty_db" /\
  opt_get v "message" = JStr "No indexed documents found" /\
  opt_get v "count" = num 0.

Definition is_success_envelope (v : jsval) (normalized : list jsval) (query : string) : Prop :=
  field_names v = ["results"; "searchType"; "query"; "count"] /\
  opt_get v "results" = JArr normalized /\
  opt_get v "searchType" = JStr "vector" /\
  opt_get v "query" = JStr query /\
  opt_get v "count" = num (Z.of_nat (length normalized)).

Definition is_search_error_envelope (v err : jsval) (query : string) : Prop :=
  field_names v = ["error"; "details"; "query"] /\
  opt_get v "error" = JStr "search_error" /\
  opt_get v "details" = nc (opt_get err "message") (JStr (to_string err)) /\
  opt_get v "query" = JStr query.

(** A document one of whose fields cannot be converted to a string. *)
Definition doc_unconvertible_name : jsval :=
  JObj [("pageContent", JStr "Mangrove Bay restoration");
        ("metadata",
         JObj [("source", JStr "dummyProjects");
               ("raw", JObj [("projectName", JObj [("toString", num 1)])])])].

(** The value is the number 0 or the empty string. *)
Definition zero_or_empty (v : jsval) : bool := is_num v 0 || is_str v "".

(** A 0 or empty value read as a missing one. *)
Definition as_absent (v : jsval) : jsval :=
  if zero_or_empty v then JUndefined else v.

Definition project_as_absent (l : project_locals) : project_locals :=
  {| projectName := projectName l;
     location := as_absent (location l);
     price := as_absent (price l);
     sequestration := as_absent (sequestration l);
     stock := as_absent (stock l) |}.

Definition row_as_absent (l : row_locals) : row_locals :=
  {| nama := nama l;
     luas := as_absent (luas l);
     karbon := as_absent (karbon l);
     rating := as_absent (rating l) |}.

(** Postconditions: no constraint; the value is neither [undefined] nor [null]. *)
Definition any {A} (_ : A) : Prop := True.
Definition non_nullish (v : jsval) : Prop := nullish v = false.

(** [m] returns, without any effect, a value satisfying [P]. *)
Definition returns_where {A} (P : A -> Prop) (m : Eff A) : Prop :=
  exists a, m = ret a /\ P a.

(** A rate-limit error, as an upstream client throws it. *)
Definition rate_limit_error : jsval :=
  JObj [("status", num 429); ("message", JStr "Too Many Requests")].

(** An operation that is rate limited on every call. *)
Definition always_rate_limited : @operation jsval := fun _ => Thrown rate_limit_error.

(** An operation that is rate limited twice and then answers. *)
Definition rate_limited_twice : @operation jsval :=
  fun i => if (i <? 2)%nat then Thrown rate_limit_error else Returned (JStr "ok").

(** Example documents. *)
Definition doc_without_fields : jsval := JObj [].

Definition doc_empty_content : jsval :=
  JObj [("pageContent", JStr ""); ("metadata", JObj [])].

Definition doc_project_without_name : jsval :=
  JObj [("metadata", JObj [("source", JStr "dummyProjects")])].

Definition doc_row_without_name : jsval :=
  JObj [("metadata", JObj [("source", JStr "csv")])].

Definition doc_chunk_without_content : jsval :=
  JObj [("metadata", JObj [("source", JStr "markdown")])].

Definition doc_mangrove : jsval :=
  JObj [("pageContent", JStr "Mangrove Bay restoration");
        ("metadata",
         JObj [("source", JStr "dummyProjects");
               ("raw", JObj [("projectName", JStr "Mangrove Bay");
                             ("location", JStr "Bali");
                             ("price", num 50);
                             ("stock", num 0)])])].

Definition mangrove_locals : project_locals :=
  {| projectName := JStr "Mangrove Bay"; location := JStr "Bali";
     price := num 50; sequestration := JUndefined; stock := num 0 |}.

Definition doc_kalimantan : jsval :=
  JObj [("pageContent", JStr "Kalimantan Site A");
        ("metadata",
         JObj [("source", JStr "csv");
               ("row", JObj [("nama_lokasi", JStr "Kalimantan Site A");
                             ("luas_ha", num 120);
                             ("rating_ulasan", JStr "")])])].

Definition kalimantan_locals : row_locals :=
  {| nama := JStr "Kalimantan Site A"; luas := num 120;
     karbon := JUndefined; rating := JStr "" |}.

Definition doc_plain : jsval :=
  JObj [("pageContent", JStr "Carbon credits are issued per tonne.")].

(** Example environments: an empty collection; a collection whose search
    is rate limited on every call; a collection answering two hits. *)
Definition env_empty : environment :=
  {| countDocuments := Returned (num 0);
     newEmbeddings := Returned tt;
     newVectorStore := Returned tt;
     similaritySearchWithScore := fun _ _ _ => Returned [] |}.

Definition env_rate_limited : environment :=
  {| countDocuments := Returned (num 42);
     newEmbeddings := Returned tt;
     newVectorStore := Returned tt;
     similaritySearchWithScore := fun _ _ _ => Thrown rate_limit_error |}.

Definition env_two_hits : environment :=
  {| countDocuments := Returned (num 42);
     newEmbeddings := Returned tt;
     newVectorStore := Returned tt;
     similaritySearchWithScore := fun _ _ _ =>
       Returned [(doc_mangrove, JNum (NFrac "0.93"));
                 (doc_kalimantan, JNum (NFrac "0.87"))] |}.

(* ===================================================================== *)
(** ** The agent graph: routing, the model node, the state reducer *)
(* ===================================================================== *)

(** [v.length], for a value that is neither [undefined] nor [null] *)
Definition length_of (v : jsval) : jsval :=
  match v with
  | JArr items => num (Z.of_nat (length items))
  | JStr s => num (Z.of_nat (String.length s))
  | JObj fields => lookup "length" fields
  | _ => JUndefined
  end.

(** [shouldContinue(state)].  The [messages] channel of the graph state is an
    array, or is missing ([None]); the function answers the name of the next
    node. *)
Definition shouldContinue (state_messages : option (list jsval)) : string :=
  (* const msgs = state.messages || [] *)
  let msgs := match state_messages with Some items => items | None => [] end in
  (* const last = msgs[msgs.length - 1] *)
  let last := List.last msgs JUndefined in
  if negb (truthy last) then "__end__"
  else if truthy (opt_get last "tool_calls")
          && truthy (length_of (opt_get last "tool_calls"))
       then "tools"
       else "__end__".

(** The reducer of the [messages] channel, [(x, y) => x.concat(y)]:
    [concat] appends the elements of an array, and any other value as one
    element. *)
Definition messages_reducer (x : list jsval) (y : jsval) : list jsval :=
  match y with
  | JArr items => (x ++ items)%list
  | _ => (x ++ [y])%list
  end.

(** The thunk [callModel] hands to [retryWithBackoff]: it formats the prompt,
    invokes the model and wraps the answer.  [model i] is the outcome of
    formatting and invoking in the [i]-th run of the thunk. *)
Definition model_thunk (model : @operation jsval) : @operation jsval :=
  fun i =>
    match model i with
    | Returned answer => Returned (JObj [("messages", JArr [answer])])
    | Thrown err => Thrown err
    end.

(** [callModel(state)]: [retryWithBackoff(async () => ...)], with the default
    budget of 3. *)
Definition callModel (model : @operation jsval) : Eff jsval :=
  retryWithBackoff (model_thunk model) 3.

(* ===================================================================== *)
(** ** callAgent and the two chat routes *)
(* ===================================================================== *)

(** What [callAgent] and the routes of the server do to the outside world. *)
Inductive turn_event : Type :=
| TurnSetup                                 (* db handle, tool, model, graph, checkpointer *)
| TurnInvoke (query thread_id : jsval)      (* app.invoke(..., { recursionLimit: 12, ... }) *)
| TurnLogResponse (response : jsval)        (* console.log("[Swappy] response:", ...) *)
| TurnLogError (err : jsval)                (* console.error("[callAgent] error:", err) *)
| RouteLogError (message : jsval)           (* console.error of a route *)
| RouteRespond (status : Z) (body : jsval). (* res.status(...).json(body) *)

Definition Run (A : Type) : Type := (list turn_event * outcome A)%type.

Definition run_ret {A} (a : A) : Run A := ([], Returned a).
Definition run_throw {A} (err : jsval) : Run A := ([], Thrown err).
Definition run_emit (e : turn_event) : Run unit := ([e], Returned tt).
Definition run_perform {A} (e : turn_event) (o : outcome A) : Run A := ([e], o).

Definition run_bind {A B} (m : Run A) (f : A -> Run B) : Run B :=
  match m with
  | (t, Returned a) => let (t', r) := f a in ((t ++ t')%list, r)
  | (t, Thrown err) => (t, Thrown err)
  end.

Definition run_try_catch {A} (m : Run A) (handler : jsval -> Run A) : Run A :=
  match m with
  | (t, Returned a) => (t, Returned a)
  | (t, Thrown err) => let (t', r) := handler err in ((t ++ t')%list, r)
  end.

Definition run_trace {A} (m : Run A) : list turn_event := fst m.
Definition run_result {A} (m : Run A) : outcome A := snd m.

(** [v.k] in a route or in [callAgent] *)
Definition run_get (v : jsval) (k : string) : Run jsval :=
  if nullish v then run_throw (new_TypeError "Cannot read properties of undefined")
  else run_ret (opt_get v k).

Declare Scope run_scope.
Delimit Scope run_scope with run.
Notation "x <- m ;; k" := (run_bind m (fun x => k))
  (at level 100, m at next level, right associativity) : run_scope.
Notation "m ;;; k" := (run_bind m (fun _ => k))
  (at level 100, right associativity) : run_scope.

(** The surroundings of one call of [callAgent]: the value of
    [process.env.GOOGLE_API_KEY]; whether building the handles, the tool, the
    model, the graph and the checkpointer succeeds; and what [app.invoke]
    answers, a final state given by its [messages] array. *)
Record agent_environment : Type := {
  apiKey : jsval;
  setup : outcome unit;
  invoke : outcome (list jsval)
}.

(** [(lastMsg && lastMsg.content) || ""] *)
Definition response_of (lastMsg : jsval) : jsval :=
  let content := if truthy lastMsg then opt_get lastMsg "content" else lastMsg in
  if truthy content then content else JStr "".

(** The [catch] block of [callAgent].  What it catches is an Error thrown by
    the code above or by a collaborator; the template literal converts its
    message, a text, or else the Error itself, which has no own [toString]. *)
Definition callAgent_catch (err : jsval) : Run jsval :=
  (run_emit (TurnLogError err) ;;;
   if is_num (opt_get err "status") 429 then
     run_throw (new_Error "Rate limited; try again later.")
   else if is_num (opt_get err "status") 401 then
     run_throw (new_Error "Authentication error; check API key.")
   else
     run_throw (new_Error ("Agent error: "
                             ++ to_string (nc (opt_get err "message")
                                              (JStr (to_string err))))))%run.

(** [callAgent(client, query, thread_id)] *)
Definition callAgent (env : agent_environment) (query thread_id : jsval) : Run jsval :=
  run_try_catch
    (if negb (truthy (apiKey env)) then
       run_throw (new_Error "GOOGLE_API_KEY environment variable is required")
     else
       (run_perform TurnSetup (setup env) ;;;
        finalState <- run_perform (TurnInvoke query thread_id) (invoke env) ;;
        (* finalState.messages[finalState.messages.length - 1] *)
        let lastMsg := List.last finalState JUndefined in
        let response := response_of lastMsg in
        run_emit (TurnLogResponse response) ;;;
        run_ret response)%run)
    callAgent_catch.

(** [res.json(body)], with the status set before (200 when none was);
    sending is taken to succeed. *)
Definition respond (status : Z) (body : jsval) : Run unit :=
  run_emit (RouteRespond status body).

(** [app.post("/chat", ...)]: [body] is [req.body], [now] is [Date.now()]. *)
Definition chat_route (env : agent_environment) (now : Z) (body : jsval) : Run unit :=
  (initialMessage <- run_get body "message" ;;
   let threadId := JStr (string_of_Z now) in
   run_try_catch
     (response <- callAgent env initialMessage threadId ;;
      respond 200 (JObj [("threadId", threadId); ("response", response)]))
     (fun error =>
        logged <- run_get error "message" ;;
        run_emit (RouteLogError logged) ;;;
        message <- run_get error "message" ;;
        respond 500 (JObj [("error", if truthy message then message
                                     else JStr "Internal Server Error")])))%run.

(** [app.post("/chat/:threadId", ...)]: [threadId] is [req.params.threadId]. *)
Definition chat_thread_route (env : agent_environment) (threadId body : jsval) : Run unit :=
  (message <- run_get body "message" ;;
   run_try_catch
     (response <- callAgent env message threadId ;;
      respond 200 (JObj [("response", response)]))
     (fun error =>
        logged <- run_get error "message" ;;
        run_emit (RouteLogError logged) ;;;
        respond 500 (JObj [("error", JStr "Internal Server Error")])))%run.

(** The responses a run has sent, in order. *)
Definition responses (t : list turn_event) : list (Z * jsval) :=
  flat_map (fun e => match e with RouteRespond s b => [(s, b)] | _ => [] end) t.

(** Whether a run reached the graph. *)
Definition reached_graph (t : list turn_event) : bool :=
  existsb (fun e => match e with TurnSetup | TurnInvoke _ _ => true | _ => false end) t.

(* ===================================================================== *)
(** ** More vocabulary *)
(* ===================================================================== *)

(** The delays slept in a trace, in order. *)
Definition sleeps (t : list event) : list Z :=
  flat_map (fun e => match e with EvSleep d => [d] | _ => [] end) t.

Definition total_sleep (t : list event) : Z := fold_right Z.add 0 (sleeps t).

(** The errors written to [console.error] by the tool. *)
Definition logged_errors (t : list event) : list jsval :=
  flat_map (fun e => match e with EvToolError err => [err] | _ => [] end) t.

(** The character occurs in the string. *)
Fixpoint has_char (c : ascii) (s : string) : bool :=
  match s with
  | EmptyString => false
  | String c' rest => Ascii.eqb c' c || has_char c rest
  end.

Definition first_char (s : string) : option ascii :=
  match s with
  | EmptyString => None
  | String c _ => Some c
  end.

Fixpoint last_char (s : string) : option ascii :=
  match s with
  | EmptyString => None
  | String c EmptyString => Some c
  | String _ rest => last_char rest
  end.

(** Neither the first nor the last character is white space. *)
Definition is_trimmed (s : string) : Prop :=
  (forall c, first_char s = Some c -> is_space c = false) /\
  (forall c, last_char s = Some c -> is_space c = false).

(** The hit is handled by the document-chunk branch. *)
Definition takes_markdown_branch (doc : jsval) : Prop :=
  exists meta source,
    resolve_meta doc = ret meta /\
    resolve_source doc meta = ret source /\
    is_project source meta = ret false /\
    is_row source meta = ret false /\
    is_str source "markdown" = true.

(** An assistant message asking for the given tool calls. *)
Definition ai_message (content : string) (tool_calls : list jsval) : jsval :=
  JObj [("content", JStr content); ("tool_calls", JArr tool_calls)].

(** A collection one of whose hits has a field that cannot be converted. *)
Definition env_unconvertible_hit : environment :=
  {| countDocuments := Returned (num 42);
     newEmbeddings := Returned tt;
     newVectorStore := Returned tt;
     similaritySearchWithScore := fun _ _ _ =>
       Returned [(doc_mangrove, JNum (NFrac "0.93"));
                 (doc_unconvertible_name, JNum (NFrac "0.87"))] |}.

(** More examples, for the statements below. *)
Definition unauthorized_error : jsval :=
  JObj [("status", num 401); ("message", JStr "API key not valid")].

Definition rate_limited_then_unauthorized : @operation jsval :=
  fun i => if (i <? 1)%nat then Thrown rate_limit_error else Thrown unauthorized_error.

Definition doc_markdown : jsval :=
  JObj [("pageContent",
         JStr ("  # Carbon rules" ++ String newline ("Scope" ++ String newline
                 ("Limits" ++ String newline "Annex A"))));
        ("metadata", JObj [("source", JStr "markdown"); ("_id", JStr "doc-7")])].

Definition doc_raw_in_csv : jsval :=
  JObj [("pageContent", JStr "Peatland rewetting");
        ("metadata",
         JObj [("source", JStr "csv");
               ("raw", JObj [("projectName", JStr "Peatland")]);
               ("row", JObj [("nama_lokasi", JStr "Riau")])])].

Definition human_message (content : string) : jsval :=
  JObj [("content", JStr content)].

Definition search_call : jsval :=
  JObj [("name", JStr "vector_search"); ("args", JObj [("query", JStr "mangrove")])].

Definition agent_env_answers : agent_environment :=
  {| apiKey := JStr "key";
     setup := Returned tt;
     invoke := Returned [human_message "Hi"; ai_message "Hello, I am Swappy." []] |}.

Definition agent_env_without_key : agent_environment :=
  {| apiKey := JUndefined;
     setup := Returned tt;
     invoke := Returned [] |}.

Definition agent_env_rate_limited : agent_environment :=
  {| apiKey := JStr "key";
     setup := Returned tt;
     invoke := Thrown rate_limit_error |}.

(** A rate-limit error that carries the number 429 as [code] only. *)
Definition rate_limit_by_code : jsval :=
  JObj [("code", num 429); ("message", JStr "Quota exceeded")].

(* ===================================================================== *)
(** ** The monad *)
(* ===================================================================== *)

Lemma bind_ret_l {A B} (a : A) (f : A -> Eff B) : bind (ret a) f = f a.
Proof. unfold bind, ret. destruct (f a); reflexivity. Qed.

Lemma result_bind {A B} (m : Eff A) (f : A -> Eff B) :
  result (bind m f)
  = match result m with
    | Returned a => result (f a)
    | Thrown err => Thrown err
    end.
Proof.
  destruct m as [t [a|err]]; simpl; [|reflexivity].
  destruct (f a); reflexivity.
Qed.

Lemma result_try_catch {A} (m : Eff A) (handler : jsval -> Eff A) :
  result (try_catch m handler)
  = match result m with
    | Returned a => Returned a
    | Thrown err => result (handler err)
    end.
Proof.
  destruct m as [t [a|err]]; simpl; [reflexivity|].
  destruct (handler err); reflexivity.
Qed.

Lemma invocations_app t1 t2 :
  invocations (t1 ++ t2) = (invocations t1 + invocations t2)%nat.
Proof. unfold invocations. rewrite filter_app, length_app. reflexivity. Qed.

Lemma invocations_retries a k : invocations (retries_trace a k) = k.
Proof.
  revert a. induction k as [|k IH]; intro a; [reflexivity|].
  simpl. unfold invocations in *. simpl. now rewrite IH.
Qed.

(* ===================================================================== *)
(** ** retryWithBackoff: theorems *)
(* ===================================================================== *)

Section RetryFacts.
Context {T : Type}.
Variable fn : @operation T.
Variable maxRetries : Z.

(** [k] rate-limited calls followed by a call that ends the loop: the
    helper makes exactly these [k + 1] calls and hands over the outcome of
    the last one. *)
Lemma retry_loop_run (k : nat) : forall (a c m : nat),
  (forall i, (i < k)%nat -> exists err, fn (c + i)%nat = Thrown err /\ isRate err = true) ->
  (k < m)%nat ->
  Z.of_nat (a + k) <= maxRetries ->
  ends_loop maxRetries (fn (c + k)%nat) (Z.of_nat (a + k)) ->
  retry_loop fn maxRetries (map Z.of_nat (seq a m)) c
  = ((retries_trace a k ++ [EvInvoke])%list, fn (c + k)%nat).
Proof.
  induction k as [|k IH]; intros a c m Hfail Hm Hle Hend.
  - destruct m as [|m]; [lia|]. simpl.
    rewrite !Nat.add_0_r in *.
    unfold perform. destruct (fn c) as [v|err]; simpl; [reflexivity|].
    simpl in Hend. rewrite Hend. reflexivity.
  - destruct m as [|m]; [lia|]. simpl.
    destruct (Hfail 0%nat ltac:(lia)) as [err [Hc Hrate]].
    rewrite Nat.add_0_r in Hc. unfold perform. rewrite Hc. simpl.
    rewrite Hrate.
    assert (Hlt : (Z.of_nat a <? maxRetries) = true) by (apply Z.ltb_lt; lia).
    rewrite Hlt. simpl.
    rewrite (IH (S a) (S c) m).
    + simpl. replace (S (c + k)) with (c + S k)%nat by lia. reflexivity.
    + intros i Hi. replace (S c + i)%nat with (c + S i)%nat by lia.
      apply Hfail. lia.
    + lia.
    + replace (S a + k)%nat with (a + S k)%nat by lia. exact Hle.
    + replace (S a + k)%nat with (a + S k)%nat by lia.
      replace (S c + k)%nat with (c + S k)%nat by lia. exact Hend.
Qed.

(** C6.  An operation that fails with a rate-limit error (status or code
    429) on its first [k] calls, [k < maxRetries], and then succeeds:
    [retryWithBackoff] returns the value of that success, and the operation
    has been called exactly [k + 1] times. *)
Theorem retry_succeeds_after_rate_limits (k : nat) (v : T) :
  Z.of_nat k < maxRetries ->
  (forall i, (i < k)%nat -> exists err, fn i = Thrown err /\ isRate err = true) ->
  fn k = Returned v ->
  result (retryWithBackoff fn maxRetries) = Returned v /\
  invocations (trace (retryWithBackoff fn maxRetries)) = S k.
Proof.
  intros Hk Hfail Hok.
  unfold retryWithBackoff, attempts_upto.
  rewrite (retry_loop_run k 1 0 (Z.to_nat maxRetries)).
  - simpl. split; [exact Hok|].
    rewrite invocations_app, invocations_retries.
    change (invocations [EvInvoke]) with 1%nat. lia.
  - exact Hfail.
  - lia.
  - lia.
  - simpl. rewrite Hok. exact I.
Qed.

(** C9.  With [maxRetries] zero or negative the loop body is never
    entered: the helper throws the "Max retries exceeded" error and the
    operation is not called at all (the trace is empty). *)
Theorem retry_nonpositive_budget :
  maxRetries <= 0 ->
  retryWithBackoff fn maxRetries = throw (new_Error "Max retries exceeded") /\
  invocations (trace (retryWithBackoff fn maxRetries)) = 0%nat.
Proof.
  intro Hle. unfold retryWithBackoff, attempts_upto.
  replace (Z.to_nat maxRetries) with 0%nat by lia.
  simpl. split; reflexivity.
Qed.

End RetryFacts.

(** C1 (as amended).  An operation that fails with a rate-limit error on
    every call, run with [maxRetries = 3]: it is called exactly 3 times, and
    the helper then fails with the error of the third call, a rate-limit
    error, which is not the "Max retries exceeded" error. *)
Theorem retry_exhausted_rethrows_rate_limit {T} (fn : @operation T) :
  (forall i, exists err, fn i = Thrown err /\ isRate err = true) ->
  exists err,
    fn 2%nat = Thrown err /\
    isRate err = true /\
    result (retryWithBackoff fn 3) = Thrown err /\
    err <> new_Error "Max retries exceeded" /\
    invocations (trace (retryWithBackoff fn 3)) = 3%nat.
Proof.
  intro Hall. destruct (Hall 2%nat) as [err [H2 Hrate]].
  exists err. unfold retryWithBackoff, attempts_upto.
  rewrite (retry_loop_run fn 3 2 1 0 (Z.to_nat 3)).
  - simpl. repeat split; try assumption.
    intro Heq. rewrite Heq in Hrate. discriminate Hrate.
  - intros i _. apply Hall.
  - simpl. lia.
  - simpl. lia.
  - simpl. rewrite H2. simpl. rewrite Hrate. reflexivity.
Qed.

(** C1, counterexample: an operation that always throws a 429 error makes
    the helper, with [maxRetries = 3], fail with that 429 error after three
    calls; the final error is not "Max retries exceeded". *)
Lemma retry_exhausted_counterexample :
  result (retryWithBackoff always_rate_limited 3) = Thrown rate_limit_error /\
  invocations (trace (retryWithBackoff always_rate_limited 3)) = 3%nat /\
  result (retryWithBackoff always_rate_limited 3)
    <> Thrown (new_Error "Max retries exceeded").
Proof.
  repeat split; try reflexivity. intro H. discriminate H.
Qed.

(** C1, instance: the operation that throws the same 429 error on every call. *)
Lemma retry_exhausted_rethrows_rate_limit_witness :
  exists err,
    always_rate_limited 2%nat = Thrown err /\
    isRate err = true /\
    result (retryWithBackoff always_rate_limited 3) = Thrown err /\
    err <> new_Error "Max retries exceeded" /\
    invocations (trace (retryWithBackoff always_rate_limited 3)) = 3%nat.
Proof.
  apply (retry_exhausted_rethrows_rate_limit always_rate_limited).
  intro i. exists rate_limit_error. split; reflexivity.
Defined.

(** C6, instance: two rate-limited calls, then the answer ["ok"], with a budget of 3. *)
Lemma retry_succeeds_after_rate_limits_witness :
  result (retryWithBackoff rate_limited_twice 3) = Returned (JStr "ok") /\
  invocations (trace (retryWithBackoff rate_limited_twice 3)) = 3%nat.
Proof.
  apply (retry_succeeds_after_rate_limits rate_limited_twice 3 2 (JStr "ok")).
  - reflexivity.
  - intros i Hi. exists rate_limit_error. unfold rate_limited_twice.
    apply Nat.ltb_lt in Hi. rewrite Hi. split; reflexivity.
  - reflexivity.
Defined.

(** C9, instance: a budget of 0. *)
Lemma retry_nonpositive_budget_witness :
  retryWithBackoff always_rate_limited 0 = throw (new_Error "Max retries exceeded") /\
  invocations (trace (retryWithBackoff always_rate_limited 0)) = 0%nat.
Proof.
  apply (retry_nonpositive_budget always_rate_limited 0). lia.
Defined.

(* ===================================================================== *)
(** ** Effect-free computations *)
(* ===================================================================== *)

Lemma returns_ret {A} (P : A -> Prop) (a : A) : P a -> returns_where P (ret a).
Proof. intro H. exists a. split; [reflexivity | exact H]. Qed.

Lemma returns_bind {A B} (P : A -> Prop) (Q : B -> Prop) (m : Eff A) (f : A -> Eff B) :
  returns_where P m ->
  (forall a, P a -> returns_where Q (f a)) ->
  returns_where Q (bind m f).
Proof.
  intros [a [Hm Ha]] Hf. subst m. rewrite bind_ret_l. apply Hf, Ha.
Qed.

Lemma returns_weaken {A} (P Q : A -> Prop) (m : Eff A) :
  returns_where P m -> (forall a, P a -> Q a) -> returns_where Q m.
Proof. intros [a [Hm Ha]] HPQ. exists a. split; [exact Hm | apply HPQ, Ha]. Qed.

Lemma get_non_nullish (v : jsval) (k : string) :
  nullish v = false -> get v k = ret (opt_get v k).
Proof. intro H. unfold get. rewrite H. reflexivity. Qed.

Lemma returns_get (v : jsval) (k : string) :
  nullish v = false -> returns_where any (get v k).
Proof. intro H. rewrite (get_non_nullish _ _ H). now apply returns_ret. Qed.

Lemma returns_get_opt (v : jsval) (k : string) : returns_where any (get_opt v k).
Proof.
  unfold get_opt. destruct (nullish v) eqn:E.
  - now apply returns_ret.
  - now apply returns_get.
Qed.

Lemma coalesce_ret (x : jsval) (b : Eff jsval) :
  (ret x ?? b) = if nullish x then b else ret x.
Proof. unfold coalesce. apply bind_ret_l. Qed.

Lemma returns_coalesce (a b : Eff jsval) :
  returns_where any a -> returns_where any b -> returns_where any (a ?? b).
Proof.
  intros [x [Ha _]] Hb. subst a. rewrite coalesce_ret.
  destruct (nullish x); [exact Hb | now apply returns_ret].
Qed.

Lemma returns_coalesce_non_nullish (a b : Eff jsval) :
  returns_where any a -> returns_where non_nullish b ->
  returns_where non_nullish (a ?? b).
Proof.
  intros [x [Ha _]] Hb. subst a. rewrite coalesce_ret.
  destruct (nullish x) eqn:E; [exact Hb | now apply returns_ret].
Qed.

Lemma document_non_nullish (doc : jsval) : is_document doc = true -> nullish doc = false.
Proof. destruct doc; simpl; congruence. Qed.

Lemma resolve_meta_returns (doc : jsval) :
  nullish doc = false -> returns_where non_nullish (resolve_meta doc).
Proof.
  intro Hd. unfold resolve_meta.
  apply returns_coalesce_non_nullish; [now apply returns_get | now apply returns_ret].
Qed.

Lemma resolve_meta_inv (doc meta : jsval) :
  resolve_meta doc = ret meta -> nullish doc = false /\ nullish meta = false.
Proof.
  intro H. assert (Hd : nullish doc = false).
  { unfold resolve_meta, coalesce, get in H. destruct (nullish doc); [discriminate H | reflexivity]. }
  split; [exact Hd|].
  destruct (resolve_meta_returns doc Hd) as [m [Hm Hn]].
  rewrite Hm in H. injection H as H. subst. exact Hn.
Qed.

Lemma resolve_source_returns (doc meta : jsval) :
  nullish doc = false -> nullish meta = false ->
  returns_where any (resolve_source doc meta).
Proof.
  intros Hd Hm. unfold resolve_source.
  repeat apply returns_coalesce; try now apply returns_get.
  now apply returns_ret.
Qed.

Lemma resolve_id_returns (doc meta : jsval) :
  nullish doc = false -> nullish meta = false ->
  returns_where any (resolve_id doc meta).
Proof.
  intros Hd Hm. unfold resolve_id.
  repeat apply returns_coalesce; try now apply returns_get.
  apply (returns_bind any); [now apply returns_get|].
  intros m _. apply returns_get_opt.
Qed.

Lemma is_project_returns (source meta : jsval) :
  nullish meta = false -> returns_where any (is_project source meta).
Proof.
  intro Hm. unfold is_project. destruct (is_str source "dummyProjects").
  - now apply returns_ret.
  - apply (returns_bind any); [now apply returns_get|].
    intros r _. now apply returns_ret.
Qed.

Lemma is_row_returns (source meta : jsval) :
  nullish meta = false -> returns_where any (is_row source meta).
Proof.
  intro Hm. unfold is_row. destruct (is_str source "csv").
  - now apply returns_ret.
  - apply (returns_bind any); [now apply returns_get|].
    intros r _. now apply returns_ret.
Qed.

Lemma returns_coalesce_where (P : jsval -> Prop) (a b : Eff jsval) :
  (forall x, nullish x = false -> P x) ->
  returns_where any a -> returns_where P b -> returns_where P (a ?? b).
Proof.
  intros HP [x [Ha _]] Hb. subst a. rewrite coalesce_ret.
  destruct (nullish x) eqn:E; [exact Hb | now apply returns_ret, HP].
Qed.

(** The name fallback [doc.pageContent?.slice(0, 80)] of a document *)
Lemma content_excerpt_returns (doc : jsval) :
  is_document doc = true ->
  returns_where (fun n => has_text doc -> nullish n = false)
                (pc <- get doc "pageContent" ;; call_slice_opt pc 80).
Proof.
  intro Hdoc. destruct doc; try discriminate Hdoc. simpl in Hdoc.
  rewrite get_non_nullish by reflexivity. rewrite bind_ret_l.
  unfold has_text. simpl.
  destruct (lookup "pageContent" fields); try discriminate Hdoc; simpl;
    apply returns_ret; try reflexivity; intros [s Hs]; discriminate Hs.
Qed.

Lemma resolve_project_returns (doc meta : jsval) :
  is_document doc = true -> nullish meta = false ->
  returns_where (fun l => has_text doc -> nullish (projectName l) = false)
                (resolve_project doc meta).
Proof.
  intros Hdoc Hm. pose proof (document_non_nullish _ Hdoc) as Hd.
  unfold resolve_project.
  apply (returns_bind non_nullish).
  { repeat apply returns_coalesce_non_nullish; try now apply returns_get.
    - apply (returns_bind any); [now apply returns_get|].
      intros m _. apply returns_get_opt.
    - now apply returns_ret. }
  intros raw Hraw.
  apply (returns_bind (fun n => has_text doc -> nullish n = false)).
  { repeat (apply returns_coalesce_where;
            [intros x Hx _; exact Hx | now apply returns_get |]).
    now apply content_excerpt_returns. }
  intros name Hname.
  repeat (apply (returns_bind any);
          [repeat apply returns_coalesce; now apply returns_get | intros ? _]).
  apply returns_ret. exact Hname.
Qed.

Lemma resolve_row_returns (doc meta : jsval) :
  is_document doc = true -> nullish meta = false ->
  returns_where (fun l => has_text doc -> nullish (nama l) = false)
                (resolve_row doc meta).
Proof.
  intros Hdoc Hm. pose proof (document_non_nullish _ Hdoc) as Hd.
  unfold resolve_row.
  apply (returns_bind non_nullish).
  { repeat apply returns_coalesce_non_nullish; try now apply returns_get.
    now apply returns_ret. }
  intros row Hrow.
  apply (returns_bind (fun n => has_text doc -> nullish n = false)).
  { repeat (apply returns_coalesce_where;
            [intros x Hx _; exact Hx | now apply returns_get |]).
    now apply content_excerpt_returns. }
  intros name Hname.
  repeat (apply (returns_bind any);
          [repeat apply returns_coalesce; now apply returns_get | intros ? _]).
  apply returns_ret. exact Hname.
Qed.

Lemma document_content (doc : jsval) :
  is_document doc = true ->
  (get doc "pageContent" ?? ret (JStr "")) = ret (JStr (content_text doc)).
Proof.
  intro Hdoc. destruct doc; try discriminate Hdoc. simpl in Hdoc.
  rewrite get_non_nullish by reflexivity. rewrite coalesce_ret.
  unfold content_text. simpl.
  destruct (lookup "pageContent" fields); try discriminate Hdoc; reflexivity.
Qed.

Lemma markdown_summary_returns (doc : jsval) :
  is_document doc = true ->
  markdown_summary doc
  = ret (JStr ("Doc: " ++ trim (join " " (firstn 3 (split_on newline (content_text doc)))))).
Proof.
  intro Hdoc. unfold markdown_summary.
  rewrite (document_content _ Hdoc), bind_ret_l. reflexivity.
Qed.

Lemma fallback_summary_returns (doc : jsval) :
  is_document doc = true ->
  fallback_summary doc = ret (JStr (substring 0 150 (content_text doc))).
Proof.
  intro Hdoc. unfold fallback_summary.
  rewrite (document_content _ Hdoc), bind_ret_l. reflexivity.
Qed.

(* ===================================================================== *)
(** ** Conversions to strings *)
(* ===================================================================== *)

Lemma ToString_convertible (v : jsval) :
  convertible v = true -> ToString v = ret (to_string v).
Proof. intro H. unfold ToString. rewrite H. reflexivity. Qed.

Lemma ToString_unconvertible (v : jsval) :
  convertible v = false -> ToString v = throw conversion_error.
Proof. intro H. unfold ToString. rewrite H. reflexivity. Qed.

(** A falsy value contributes no suffix, and is not converted. *)
Lemma opt_suffix_falsy (label : string) (v : jsval) (tail : string) :
  truthy v = false -> opt_suffix label v tail = ret "".
Proof. intro H. unfold opt_suffix. rewrite H. reflexivity. Qed.

Lemma opt_suffix_shown (label : string) (v : jsval) (tail : string) :
  shown v = true -> opt_suffix label v tail = ret (suffix_text label v tail).
Proof.
  unfold shown, opt_suffix, suffix_text. destruct (truthy v); simpl; intro H.
  - rewrite (ToString_convertible _ H), bind_ret_l. reflexivity.
  - reflexivity.
Qed.

Lemma project_summary_printable (l : project_locals) :
  printable_project l = true -> project_summary l = ret (project_text l).
Proof.
  unfold printable_project. intro H.
  apply andb_true_iff in H. destruct H as [H Hstock].
  apply andb_true_iff in H. destruct H as [H Hprice].
  apply andb_true_iff in H. destruct H as [H Hseq].
  apply andb_true_iff in H. destruct H as [Hname Hloc].
  unfold project_summary, project_text.
  rewrite (ToString_convertible _ Hname), bind_ret_l.
  rewrite (opt_suffix_shown _ _ _ Hloc), bind_ret_l.
  rewrite (opt_suffix_shown _ _ _ Hseq), bind_ret_l.
  rewrite (opt_suffix_shown _ _ _ Hprice), bind_ret_l.
  rewrite (opt_suffix_shown _ _ _ Hstock), bind_ret_l.
  reflexivity.
Qed.

Lemma row_summary_printable (l : row_locals) :
  printable_row l = true -> row_summary l = ret (row_text l).
Proof.
  unfold printable_row. intro H.
  apply andb_true_iff in H. destruct H as [H Hrating].
  apply andb_true_iff in H. destruct H as [H Hkarbon].
  apply andb_true_iff in H. destruct H as [Hname Hluas].
  unfold row_summary, row_text.
  rewrite (ToString_convertible _ Hname), bind_ret_l.
  rewrite (opt_suffix_shown _ _ _ Hluas), bind_ret_l.
  rewrite (opt_suffix_shown _ _ _ Hkarbon), bind_ret_l.
  rewrite (opt_suffix_shown _ _ _ Hrating), bind_ret_l.
  reflexivity.
Qed.

Lemma nullish_falsy (v : jsval) : nullish v = true -> truthy v = false.
Proof. destruct v; simpl; congruence. Qed.

Lemma zero_or_empty_falsy (v : jsval) : zero_or_empty v = true -> truthy v = false.
Proof.
  unfold zero_or_empty. destruct v as [| |b|[z| | |]|s| |]; simpl; try discriminate.
  - rewrite orb_false_r. intro H. rewrite H. reflexivity.
  - intro H. rewrite H. reflexivity.
Qed.

Lemma opt_suffix_as_absent (label : string) (v : jsval) (tail : string) :
  opt_suffix label (as_absent v) tail = opt_suffix label v tail.
Proof.
  unfold as_absent. destruct (zero_or_empty v) eqn:E; [|reflexivity].
  rewrite (opt_suffix_falsy label v tail) by now apply zero_or_empty_falsy.
  reflexivity.
Qed.

Lemma suffix_text_falsy (label : string) (v : jsval) (tail : string) :
  truthy v = false -> suffix_text label v tail = "".
Proof. intro H. unfold suffix_text. rewrite H. reflexivity. Qed.

Lemma suffix_text_as_absent (label : string) (v : jsval) (tail : string) :
  suffix_text label (as_absent v) tail = suffix_text label v tail.
Proof.
  unfold as_absent. destruct (zero_or_empty v) eqn:E; [|reflexivity].
  rewrite (suffix_text_falsy label v tail) by now apply zero_or_empty_falsy.
  reflexivity.
Qed.

Lemma append_empty_r (s : string) : s ++ "" = s.
Proof. induction s as [|c s IH]; simpl; [reflexivity | now rewrite IH]. Qed.

(* ===================================================================== *)
(** ** Values without an own [toString] *)
(* ===================================================================== *)

Lemma plain_opt_get (v : jsval) (k : string) :
  plain v = true -> plain (opt_get v k) = true.
Proof.
  destruct v as [| | | | | |fields]; try reflexivity.
  simpl. induction fields as [|[k' x] fields IH]; simpl; intro H; [reflexivity|].
  apply andb_true_iff in H. destruct H as [Hx Hrest].
  apply andb_true_iff in Hx. destruct Hx as [_ Hx].
  destruct (String.eqb k k'); [exact Hx | now apply IH].
Qed.

Lemma plain_convertible : forall v : jsval, plain v = true -> convertible v = true.
Proof.
  fix IH 1. intros [| | | | |items|fields]; simpl; intro H; try reflexivity.
  - induction items as [|x items IHitems]; [reflexivity|].
    simpl in *. apply andb_true_iff in H. destruct H as [Hx Hrest].
    rewrite (IH x Hx), orb_true_r. simpl. now apply IHitems.
  - apply negb_true_iff.
    induction fields as [|[k x] fields IHfields]; [reflexivity|].
    simpl in *. apply andb_true_iff in H. destruct H as [Hx Hrest].
    apply andb_true_iff in Hx. destruct Hx as [Hk _].
    apply negb_true_iff in Hk. rewrite Hk. simpl. now apply IHfields.
Qed.

Lemma plain_shown (v : jsval) : plain v = true -> shown v = true.
Proof.
  intro H. unfold shown. rewrite (plain_convertible _ H). apply orb_true_r.
Qed.

Lemma returns_and {A} (P Q : A -> Prop) (m : Eff A) :
  returns_where P m -> returns_where Q m -> returns_where (fun a => P a /\ Q a) m.
Proof.
  intros [a [Ha HP]] [b [Hb HQ]]. rewrite Ha in Hb. injection Hb as Hb. subst b.
  exists a. repeat split; assumption.
Qed.

Lemma returns_coalesce_same (P : jsval -> Prop) (a b : Eff jsval) :
  returns_where P a -> returns_where P b -> returns_where P (a ?? b).
Proof.
  intros [x [Ha HP]] Hb. subst a. rewrite coalesce_ret.
  destruct (nullish x); [exact Hb | now apply returns_ret].
Qed.

Lemma returns_get_plain (v : jsval) (k : string) :
  nullish v = false -> plain v = true ->
  returns_where (fun x => plain x = true) (get v k).
Proof.
  intros Hn Hp. rewrite (get_non_nullish _ _ Hn).
  apply returns_ret. now apply plain_opt_get.
Qed.

Lemma returns_get_opt_plain (v : jsval) (k : string) :
  plain v = true -> returns_where (fun x => plain x = true) (get_opt v k).
Proof.
  intro Hp. unfold get_opt. destruct (nullish v) eqn:E.
  - now apply returns_ret.
  - now apply returns_get_plain.
Qed.

Lemma resolve_meta_plain (doc meta : jsval) :
  resolve_meta doc = ret meta -> plain doc = true -> plain meta = true.
Proof.
  intros Hmeta Hp. destruct (resolve_meta_inv _ _ Hmeta) as [Hd _].
  assert (H : returns_where (fun x => plain x = true) (resolve_meta doc)).
  { unfold resolve_meta. apply returns_coalesce_same.
    - now apply returns_get_plain.
    - now apply returns_ret. }
  destruct H as [m [Hm Hplain]]. rewrite Hmeta in Hm. injection Hm as Hm.
  subst m. exact Hplain.
Qed.

Lemma content_excerpt_plain (doc : jsval) :
  is_document doc = true ->
  returns_where (fun n => plain n = true)
                (pc <- get doc "pageContent" ;; call_slice_opt pc 80).
Proof.
  intro Hdoc. destruct doc; try discriminate Hdoc. simpl in Hdoc.
  rewrite get_non_nullish by reflexivity. rewrite bind_ret_l. simpl.
  destruct (lookup "pageContent" fields); try discriminate Hdoc; simpl;
    now apply returns_ret.
Qed.

(** In a document that holds no object with an own [toString], every value
    the template literals convert is convertible. *)
Lemma resolve_project_printable (doc meta : jsval) :
  is_document doc = true -> plain doc = true ->
  nullish meta = false -> plain meta = true ->
  returns_where (fun l => printable_project l = true) (resolve_project doc meta).
Proof.
  intros Hdoc Hpd Hm Hpm. pose proof (document_non_nullish _ Hdoc) as Hd.
  unfold resolve_project.
  apply (returns_bind (fun raw => nullish raw = false /\ plain raw = true)).
  { apply returns_and.
    - repeat apply returns_coalesce_non_nullish; try now apply returns_get.
      + apply (returns_bind any); [now apply returns_get|].
        intros m _. apply returns_get_opt.
      + now apply returns_ret.
    - repeat apply returns_coalesce_same; try now apply returns_get_plain.
      + apply (returns_bind (fun m => plain m = true)); [now apply returns_get_plain|].
        intros m Hpm'. now apply returns_get_opt_plain.
      + now apply returns_ret. }
  intros raw [Hrn Hrp].
  apply (returns_bind (fun x => plain x = true)).
  { repeat apply returns_coalesce_same; try now apply returns_get_plain.
    now apply content_excerpt_plain. }
  intros name Hname.
  apply (returns_bind (fun x => plain x = true));
    [repeat apply returns_coalesce_same; now apply returns_get_plain | intros loc Hloc].
  apply (returns_bind (fun x => plain x = true));
    [repeat apply returns_coalesce_same; now apply returns_get_plain | intros pr Hpr].
  apply (returns_bind (fun x => plain x = true));
    [repeat apply returns_coalesce_same; now apply returns_get_plain | intros sq Hsq].
  apply (returns_bind (fun x => plain x = true));
    [repeat apply returns_coalesce_same; now apply returns_get_plain | intros st Hst].
  apply returns_ret. unfold printable_project. simpl.
  rewrite (plain_convertible _ Hname), !plain_shown by assumption. reflexivity.
Qed.

Lemma resolve_row_printable (doc meta : jsval) :
  is_document doc = true -> plain doc = true ->
  nullish meta = false -> plain meta = true ->
  returns_where (fun l => printable_row l = true) (resolve_row doc meta).
Proof.
  intros Hdoc Hpd Hm Hpm. pose proof (document_non_nullish _ Hdoc) as Hd.
  unfold resolve_row.
  apply (returns_bind (fun row => nullish row = false /\ plain row = true)).
  { apply returns_and.
    - repeat apply returns_coalesce_non_nullish; try now apply returns_get.
      now apply returns_ret.
    - repeat apply returns_coalesce_same; try now apply returns_get_plain.
      now apply returns_ret. }
  intros row [Hrn Hrp].
  apply (returns_bind (fun x => plain x = true)).
  { repeat apply returns_coalesce_same; try now apply returns_get_plain.
    now apply content_excerpt_plain. }
  intros name Hname.
  apply (returns_bind (fun x => plain x = true));
    [repeat apply returns_coalesce_same; now apply returns_get_plain | intros lu Hlu].
  apply (returns_bind (fun x => plain x = true));
    [repeat apply returns_coalesce_same; now apply returns_get_plain | intros ka Hka].
  apply (returns_bind (fun x => plain x = true));
    [repeat apply returns_coalesce_same; now apply returns_get_plain | intros ra Hra].
  apply returns_ret. unfold printable_row. simpl.
  rewrite (plain_convertible _ Hname), !plain_shown by assumption. reflexivity.
Qed.

(* ===================================================================== *)
(** ** The normalizer, branch by branch *)
(* ===================================================================== *)

Lemma ret_inj {A} (a b : A) : ret a = ret b -> a = b.
Proof. intro H. injection H as H. exact H. Qed.

Lemma bind_ret_inv {A B} (m : Eff A) (f : A -> Eff B) (b : B) :
  bind m f = ret b -> exists a, m = ret a /\ f a = ret b.
Proof.
  destruct m as [t [a|err]]; simpl; [|discriminate].
  destruct (f a) as [t' r] eqn:Hf. intro H. injection H as Ht Hr.
  apply app_eq_nil in Ht. destruct Ht as [Ht Ht']. subst.
  exists a. split; [reflexivity | exact Hf].
Qed.

Lemma summary_of_composed (doc score meta source summary : jsval) :
  resolve_meta doc = ret meta ->
  resolve_source doc meta = ret source ->
  compose_summary doc meta source = ret summary ->
  summary_of (doc, score) = Returned summary.
Proof.
  intros Hmeta Hsource Hsum.
  destruct (resolve_meta_inv _ _ Hmeta) as [Hd Hm].
  destruct (resolve_id_returns doc meta Hd Hm) as [id [Hid _]].
  unfold summary_of, normalize_hit.
  rewrite Hmeta, bind_ret_l, Hsource, bind_ret_l, Hsum, bind_ret_l, Hid, bind_ret_l.
  reflexivity.
Qed.

(** The summary of a hit is what the chain of branches ends with. *)
Lemma summary_of_branches (doc score meta source : jsval) :
  resolve_meta doc = ret meta ->
  resolve_source doc meta = ret source ->
  summary_of (doc, score) = result (compose_summary doc meta source).
Proof.
  intros Hmeta Hsource.
  destruct (resolve_meta_inv _ _ Hmeta) as [Hd Hm].
  destruct (resolve_id_returns doc meta Hd Hm) as [id [Hid _]].
  unfold summary_of, normalize_hit.
  rewrite Hmeta, bind_ret_l, Hsource, bind_ret_l, result_bind.
  destruct (result (compose_summary doc meta source)) as [summary|err]; [|reflexivity].
  rewrite Hid, bind_ret_l. reflexivity.
Qed.

Lemma compose_project (doc meta source : jsval) (l : project_locals) :
  is_project source meta = ret true ->
  resolve_project doc meta = ret l ->
  result (compose_summary doc meta source) = summary_from (project_summary l).
Proof.
  intros Hp Hl. unfold compose_summary, summary_from.
  rewrite Hp, bind_ret_l, Hl, bind_ret_l, result_bind.
  destruct (result (project_summary l)); reflexivity.
Qed.

Lemma compose_row (doc meta source : jsval) (l : row_locals) :
  is_project source meta = ret false ->
  is_row source meta = ret true ->
  resolve_row doc meta = ret l ->
  result (compose_summary doc meta source) = summary_from (row_summary l).
Proof.
  intros Hp Hr Hl. unfold compose_summary, summary_from.
  rewrite Hp, bind_ret_l, Hr, bind_ret_l, Hl, bind_ret_l, result_bind.
  destruct (result (row_summary l)); reflexivity.
Qed.

Lemma compose_project_text (doc meta source : jsval) (l : project_locals) :
  is_project source meta = ret true ->
  resolve_project doc meta = ret l ->
  printable_project l = true ->
  compose_summary doc meta source = ret (JStr (project_text l)).
Proof.
  intros Hp Hl Hprint. unfold compose_summary.
  rewrite Hp, bind_ret_l, Hl, bind_ret_l, (project_summary_printable _ Hprint), bind_ret_l.
  reflexivity.
Qed.

Lemma compose_row_text (doc meta source : jsval) (l : row_locals) :
  is_project source meta = ret false ->
  is_row source meta = ret true ->
  resolve_row doc meta = ret l ->
  printable_row l = true ->
  compose_summary doc meta source = ret (JStr (row_text l)).
Proof.
  intros Hp Hr Hl Hprint. unfold compose_summary.
  rewrite Hp, bind_ret_l, Hr, bind_ret_l, Hl, bind_ret_l,
    (row_summary_printable _ Hprint), bind_ret_l.
  reflexivity.
Qed.

Lemma compose_other (doc meta source : jsval) :
  is_project source meta = ret false ->
  is_row source meta = ret false ->
  compose_summary doc meta source
  = if is_str source "markdown" then markdown_summary doc else fallback_summary doc.
Proof.
  intros Hp Hr. unfold compose_summary.
  rewrite Hp, bind_ret_l, Hr, bind_ret_l. reflexivity.
Qed.

(** In the project-record branch the summary is what the template literal
    yields: its text, or the error of a failed conversion. *)
Lemma project_branch_summary (doc score : jsval) (l : project_locals) :
  takes_project_branch doc l ->
  summary_of (doc, score) = summary_from (project_summary l).
Proof.
  intros [meta [source [Hmeta [Hsource [Hp Hl]]]]].
  rewrite (summary_of_branches _ _ _ _ Hmeta Hsource).
  now apply compose_project.
Qed.

Lemma row_branch_summary (doc score : jsval) (l : row_locals) :
  takes_row_branch doc l ->
  summary_of (doc, score) = summary_from (row_summary l).
Proof.
  intros [meta [source [Hmeta [Hsource [Hp [Hr Hl]]]]]].
  rewrite (summary_of_branches _ _ _ _ Hmeta Hsource).
  now apply compose_row.
Qed.

Lemma project_branch_text (doc score : jsval) (l : project_locals) :
  takes_project_branch doc l ->
  printable_project l = true ->
  summary_of (doc, score) = Returned (JStr (project_text l)).
Proof.
  intros Hbranch Hprint. rewrite (project_branch_summary _ _ _ Hbranch).
  unfold summary_from. rewrite (project_summary_printable _ Hprint). reflexivity.
Qed.

Lemma row_branch_text (doc score : jsval) (l : row_locals) :
  takes_row_branch doc l ->
  printable_row l = true ->
  summary_of (doc, score) = Returned (JStr (row_text l)).
Proof.
  intros Hbranch Hprint. rewrite (row_branch_summary _ _ _ Hbranch).
  unfold summary_from. rewrite (row_summary_printable _ Hprint). reflexivity.
Qed.

Lemma project_branch_printable (doc : jsval) (l : project_locals) :
  is_document doc = true -> plain doc = true ->
  takes_project_branch doc l -> printable_project l = true.
Proof.
  intros Hdoc Hplain [meta [source [Hmeta [_ [_ Hl]]]]].
  destruct (resolve_meta_inv _ _ Hmeta) as [_ Hm].
  pose proof (resolve_meta_plain _ _ Hmeta Hplain) as Hpm.
  destruct (resolve_project_printable doc meta Hdoc Hplain Hm Hpm) as [l' [Hl' Hprint]].
  rewrite Hl in Hl'. apply ret_inj in Hl'. subst l'. exact Hprint.
Qed.

Lemma row_branch_printable (doc : jsval) (l : row_locals) :
  is_document doc = true -> plain doc = true ->
  takes_row_branch doc l -> printable_row l = true.
Proof.
  intros Hdoc Hplain [meta [source [Hmeta [_ [_ [_ Hl]]]]]].
  destruct (resolve_meta_inv _ _ Hmeta) as [_ Hm].
  pose proof (resolve_meta_plain _ _ Hmeta Hplain) as Hpm.
  destruct (resolve_row_printable doc meta Hdoc Hplain Hm Hpm) as [l' [Hl' Hprint]].
  rewrite Hl in Hl'. apply ret_inj in Hl'. subst l'. exact Hprint.
Qed.

Lemma plain_printable (doc : jsval) :
  is_document doc = true -> plain doc = true -> printable doc.
Proof.
  intros Hdoc Hplain. split; intros l Hl.
  - now apply (project_branch_printable doc).
  - now apply (row_branch_printable doc).
Qed.

Lemma fallback_branch_summary (doc score : jsval) :
  is_document doc = true ->
  takes_fallback_branch doc ->
  summary_of (doc, score) = Returned (JStr (substring 0 150 (content_text doc))).
Proof.
  intros Hdoc [meta [source [Hmeta [Hsource [Hp [Hr Hmd]]]]]].
  apply (summary_of_composed _ _ meta source); try assumption.
  rewrite (compose_other _ _ _ Hp Hr), Hmd.
  now apply fallback_summary_returns.
Qed.

Lemma normalize_hit_composed (doc score meta source summary : jsval) :
  resolve_meta doc = ret meta ->
  resolve_source doc meta = ret source ->
  compose_summary doc meta source = ret summary ->
  exists id,
    normalize_hit (doc, score)
    = ret (JObj [("id", id); ("score", score); ("source", source);
                 ("summary", summary); ("full", doc)]).
Proof.
  intros Hmeta Hsource Hsum.
  destruct (resolve_meta_inv _ _ Hmeta) as [Hd Hm].
  destruct (resolve_id_returns doc meta Hd Hm) as [id [Hid _]].
  exists id. unfold normalize_hit.
  rewrite Hmeta, bind_ret_l, Hsource, bind_ret_l, Hsum, bind_ret_l, Hid, bind_ret_l.
  reflexivity.
Qed.

(** Which branch a document takes: exactly the four cases of the chain. *)
Lemma compose_summary_cases (doc meta source : jsval) :
  is_document doc = true -> nullish meta = false ->
  (exists l, is_project source meta = ret true /\
             resolve_project doc meta = ret l /\
             (has_text doc -> nullish (projectName l) = false)) \/
  (exists l, is_project source meta = ret false /\
             is_row source meta = ret true /\
             resolve_row doc meta = ret l /\
             (has_text doc -> nullish (nama l) = false)) \/
  (is_project source meta = ret false /\ is_row source meta = ret false /\
   is_str source "markdown" = true) \/
  (is_project source meta = ret false /\ is_row source meta = ret false /\
   is_str source "markdown" = false).
Proof.
  intros Hdoc Hm.
  destruct (is_project_returns source meta Hm) as [[|] [Hp _]].
  - destruct (resolve_project_returns doc meta Hdoc Hm) as [l [Hl Hname]].
    left. exists l. repeat split; assumption.
  - destruct (is_row_returns source meta Hm) as [[|] [Hr _]].
    + destruct (resolve_row_returns doc meta Hdoc Hm) as [l [Hl Hname]].
      right; left. exists l. repeat split; assumption.
    + destruct (is_str source "markdown") eqn:Hmd.
      * right; right; left. repeat split; assumption.
      * right; right; right. repeat split; assumption.
Qed.

(** The summary of a document that holds no object with an own [toString],
    whatever the branch, is a string. *)
Lemma compose_summary_string (doc meta source : jsval) :
  is_document doc = true -> plain doc = true ->
  nullish meta = false -> plain meta = true ->
  exists s, compose_summary doc meta source = ret (JStr s).
Proof.
  intros Hdoc Hplain Hm Hpm.
  destruct (compose_summary_cases doc meta source Hdoc Hm)
    as [[l [Hp [Hl _]]] | [[l [Hp [Hr [Hl _]]]] | [[Hp [Hr Hmd]] | [Hp [Hr Hmd]]]]].
  - destruct (resolve_project_printable doc meta Hdoc Hplain Hm Hpm) as [l' [Hl' Hprint]].
    rewrite Hl in Hl'. apply ret_inj in Hl'. subst l'.
    eexists. apply compose_project_text; eassumption.
  - destruct (resolve_row_printable doc meta Hdoc Hplain Hm Hpm) as [l' [Hl' Hprint]].
    rewrite Hl in Hl'. apply ret_inj in Hl'. subst l'.
    eexists. apply compose_row_text; eassumption.
  - eexists. rewrite (compose_other _ _ _ Hp Hr), Hmd.
    apply markdown_summary_returns; assumption.
  - eexists. rewrite (compose_other _ _ _ Hp Hr), Hmd.
    apply fallback_summary_returns; assumption.
Qed.

(** On such a document the normalizer returns its record, with no effect. *)
Lemma normalize_hit_returns (doc score : jsval) :
  is_document doc = true -> plain doc = true ->
  returns_where (fun rec => exists s, opt_get rec "summary" = JStr s)
                (normalize_hit (doc, score)).
Proof.
  intros Hdoc Hplain. pose proof (document_non_nullish _ Hdoc) as Hd.
  destruct (resolve_meta_returns doc Hd) as [meta [Hmeta Hm]].
  pose proof (resolve_meta_plain _ _ Hmeta Hplain) as Hpm.
  destruct (resolve_source_returns doc meta Hd Hm) as [source [Hsource _]].
  destruct (compose_summary_string doc meta source Hdoc Hplain Hm Hpm) as [s Hs].
  destruct (normalize_hit_composed doc score meta source _ Hmeta Hsource Hs)
    as [id Hid].
  eexists. split; [exact Hid|]. exists s. reflexivity.
Qed.

Lemma substring_nonempty (n : nat) (s : string) :
  s <> "" -> (0 < String.length (substring 0 (S n) s))%nat.
Proof. destruct s as [|c s]; [congruence | simpl; lia]. Qed.

(* ===================================================================== *)
(** ** The normalizer: theorems *)
(* ===================================================================== *)

(** Outside the documents of the vector store the loop body can throw: a
    [pageContent] that is a number has no [slice], and a hit whose document
    is [null] has no [metadata].  The tool catches both (see below). *)
Example normalize_hit_outside_documents :
  is_document (JObj [("pageContent", num 5)]) = false /\
  result (normalize_hit (JObj [("pageContent", num 5)], num 1))
  = Thrown (new_TypeError "slice is not a function") /\
  is_document JNull = false /\
  result (normalize_hit (JNull, num 1))
  = Thrown (new_TypeError "Cannot read properties of undefined").
Proof. repeat split. Qed.

(** A field that is an object with an own [toString] cannot be converted:
    the template literal of the branch throws, and no record is made. *)
Example normalize_hit_unconvertible_field :
  is_document doc_unconvertible_name = true /\
  plain doc_unconvertible_name = false /\
  summary_of (doc_unconvertible_name, num 1) = Thrown conversion_error.
Proof. repeat split. Qed.

(** C2, counterexample: a document with no field at all, and a document
    whose content is the empty string, are both normalised to the summary
    [""], of length 0; and on a project record whose name is an object with
    an own [toString] the normalizer raises a TypeError. *)
Lemma normalizer_empty_summary_counterexample :
  summary_of (doc_without_fields, num 1) = Returned (JStr "") /\
  summary_of (doc_empty_content, num 1) = Returned (JStr "") /\
  String.length "" = 0%nat /\
  is_document doc_unconvertible_name = true /\
  result (normalize_hit (doc_unconvertible_name, num 1)) = Thrown conversion_error.
Proof. repeat split. Qed.

(** C2 (as amended).  On every document in which the values that the
    template literal of its branch prints (the name and every truthy
    optional field of a project record or of a tabular row) can be
    converted to a string, the normalizer never raises and produces a
    summary string.  In the final [else] branch (no source-specific shape)
    the summary is the first 150 characters of the content, the empty
    string when the content is empty or missing; in every other branch, and
    whenever the content is not empty, the summary has length > 0. *)
Theorem normalizer_total_summary (doc score : jsval) :
  is_document doc = true ->
  printable doc ->
  returns_where any (normalize_hit (doc, score)) /\
  exists s,
    summary_of (doc, score) = Returned (JStr s) /\
    (takes_fallback_branch doc -> s = substring 0 150 (content_text doc)) /\
    (~ takes_fallback_branch doc -> (0 < String.length s)%nat) /\
    (content_text doc <> "" -> (0 < String.length s)%nat).
Proof.
  intros Hdoc [Hprintp Hprintr].
  pose proof (document_non_nullish _ Hdoc) as Hd.
  destruct (resolve_meta_returns doc Hd) as [meta [Hmeta Hm]].
  destruct (resolve_source_returns doc meta Hd Hm) as [source [Hsource _]].
  assert (Hsame : forall P : jsval -> jsval -> Prop,
             (exists meta' source', resolve_meta doc = ret meta' /\
                resolve_source doc meta' = ret source' /\ P meta' source') ->
             P meta source).
  { intros P [meta' [source' [Hmeta' [Hsource' HP]]]].
    rewrite Hmeta in Hmeta'. apply ret_inj in Hmeta'. subst meta'.
    rewrite Hsource in Hsource'. apply ret_inj in Hsource'. subst source'.
    exact HP. }
  assert (Hsum : exists s,
             compose_summary doc meta source = ret (JStr s) /\
             (takes_fallback_branch doc -> s = substring 0 150 (content_text doc)) /\
             (~ takes_fallback_branch doc -> (0 < String.length s)%nat) /\
             (content_text doc <> "" -> (0 < String.length s)%nat)).
  { destruct (compose_summary_cases doc meta source Hdoc Hm)
      as [[l [Hp [Hl _]]] | [[l [Hp [Hr [Hl _]]]] | [[Hp [Hr Hmd]] | [Hp [Hr Hmd]]]]].
    - exists (project_text l). split; [|split; [|split]].
      + apply compose_project_text; try assumption.
        apply Hprintp. exists meta, source. repeat split; assumption.
      + intro Hfb.
        apply (Hsame (fun m s => is_project s m = ret false /\ _)) in Hfb.
        destruct Hfb as [Hp' _]. rewrite Hp in Hp'. discriminate Hp'.
      + intros _. simpl. lia.
      + intros _. simpl. lia.
    - exists (row_text l). split; [|split; [|split]].
      + apply compose_row_text; try assumption.
        apply Hprintr. exists meta, source. repeat split; assumption.
      + intro Hfb.
        apply (Hsame (fun m s => _ /\ is_row s m = ret false /\ _)) in Hfb.
        destruct Hfb as [_ [Hr' _]]. rewrite Hr in Hr'. discriminate Hr'.
      + intros _. simpl. lia.
      + intros _. simpl. lia.
    - eexists. split; [|split; [|split]].
      + rewrite (compose_other _ _ _ Hp Hr), Hmd.
        now apply markdown_summary_returns.
      + intro Hfb.
        apply (Hsame (fun m s => _ /\ _ /\ is_str s "markdown" = false)) in Hfb.
        destruct Hfb as [_ [_ Hmd']]. congruence.
      + intros _. simpl. lia.
      + intros _. simpl. lia.
    - exists (substring 0 150 (content_text doc)). split; [|split; [|split]].
      + rewrite (compose_other _ _ _ Hp Hr), Hmd.
        now apply fallback_summary_returns.
      + reflexivity.
      + intro Hnot. exfalso. apply Hnot. exists meta, source. auto.
      + apply substring_nonempty. }
  destruct Hsum as [s [Hs Hprops]]. split.
  - destruct (normalize_hit_composed doc score meta source _ Hmeta Hsource Hs)
      as [id Hid].
    eexists. split; [exact Hid | exact I].
  - exists s. split; [|exact Hprops].
    now apply (summary_of_composed _ _ meta source).
Qed.

(** C2, instances: a document with a content text and no metadata, of
    summary length > 0; and a project record, which holds no object with
    an own [toString]. *)
Lemma normalizer_total_summary_witness :
  (returns_where any (normalize_hit (doc_plain, num 1)) /\
   exists s,
     summary_of (doc_plain, num 1) = Returned (JStr s) /\
     (takes_fallback_branch doc_plain -> s = substring 0 150 (content_text doc_plain)) /\
     (~ takes_fallback_branch doc_plain -> (0 < String.length s)%nat) /\
     (content_text doc_plain <> "" -> (0 < String.length s)%nat)) /\
  returns_where any (normalize_hit (doc_mangrove, num 1)).
Proof.
  split.
  - apply (normalizer_total_summary doc_plain (num 1) eq_refl).
    now apply plain_printable.
  - apply (normalizer_total_summary doc_mangrove (num 1) eq_refl).
    now apply plain_printable.
Defined.

Lemma takes_project_branch_mangrove : takes_project_branch doc_mangrove mangrove_locals.
Proof. eexists; eexists. repeat split. Qed.

Lemma takes_row_branch_kalimantan : takes_row_branch doc_kalimantan kalimantan_locals.
Proof. eexists; eexists. repeat split. Qed.

Lemma project_name_resolved (doc : jsval) (l : project_locals) :
  is_document doc = true -> takes_project_branch doc l ->
  has_text doc -> nullish (projectName l) = false.
Proof.
  intros Hdoc [meta [source [Hmeta [_ [_ Hl]]]]].
  destruct (resolve_meta_inv _ _ Hmeta) as [_ Hm].
  destruct (resolve_project_returns doc meta Hdoc Hm) as [l' [Hl' Hname]].
  rewrite Hl in Hl'. apply ret_inj in Hl'. subst l'. exact Hname.
Qed.

Lemma row_name_resolved (doc : jsval) (l : row_locals) :
  is_document doc = true -> takes_row_branch doc l ->
  has_text doc -> nullish (nama l) = false.
Proof.
  intros Hdoc [meta [source [Hmeta [_ [_ [_ Hl]]]]]].
  destruct (resolve_meta_inv _ _ Hmeta) as [_ Hm].
  destruct (resolve_row_returns doc meta Hdoc Hm) as [l' [Hl' Hname]].
  rewrite Hl in Hl'. apply ret_inj in Hl'. subst l'. exact Hname.
Qed.

(** C4.  A project-record hit for which no name can be resolved: the
    document has the source ["dummyProjects"] and neither a [raw] record,
    nor a name field, nor a content.  The code writes the missing name out
    after the prefix: the summary is ["Project: undefined"], and in the
    tabular-row branch ["Location: undefined"].  The two other branches
    read the same missing content as [doc.pageContent ?? ""]: the
    document-chunk branch gives ["Doc: "] and the final branch the empty
    text, with nothing written for what is missing. *)
Lemma normalizer_prints_missing_name :
  is_document doc_project_without_name = true /\
  plain doc_project_without_name = true /\
  (exists l, takes_project_branch doc_project_without_name l /\
             projectName l = JUndefined) /\
  summary_of (doc_project_without_name, num 1)
  = Returned (JStr "Project: undefined") /\
  summary_of (doc_row_without_name, num 1)
  = Returned (JStr "Location: undefined") /\
  summary_of (doc_chunk_without_content, num 1) = Returned (JStr "Doc: ") /\
  summary_of (doc_without_fields, num 1) = Returned (JStr "").
Proof.
  split; [reflexivity|]. split; [reflexivity|]. split; [|repeat split].
  exists {| projectName := JUndefined; location := JUndefined;
            price := JUndefined; sequestration := JUndefined;
            stock := JUndefined |}.
  split; [|reflexivity].
  exists (JObj [("source", JStr "dummyProjects")]), (JStr "dummyProjects").
  repeat split.
Qed.

(** X26.  On every document that holds no object with an own [toString]
    the normalizer never throws.  In the project-record branch each of
    location, sequestration, price and stock that is missing leaves no
    trace in the summary (neither label nor value), and likewise area,
    carbon and rating in the tabular-row branch.  The name written after
    the prefix is a resolved value, never a missing one, whenever the
    document has a content text. *)
Theorem normalizer_omits_missing_fields (doc score : jsval) :
  is_document doc = true ->
  plain doc = true ->
  returns_where any (normalize_hit (doc, score)) /\
  (forall l, takes_project_branch doc l ->
     summary_of (doc, score) = Returned (JStr (project_text l)) /\
     (has_text doc -> nullish (projectName l) = false) /\
     (nullish (location l) = true ->
      project_text l
      = "Project: " ++ to_string (projectName l)
          ++ suffix_text " | Est. sequestration: " (sequestration l) ""
          ++ suffix_text " | Price: " (price l) ""
          ++ suffix_text " | Stock: " (stock l) "") /\
     (nullish (sequestration l) = true ->
      project_text l
      = "Project: " ++ to_string (projectName l)
          ++ suffix_text " | Location: " (location l) ""
          ++ suffix_text " | Price: " (price l) ""
          ++ suffix_text " | Stock: " (stock l) "") /\
     (nullish (price l) = true ->
      project_text l
      = "Project: " ++ to_string (projectName l)
          ++ suffix_text " | Location: " (location l) ""
          ++ suffix_text " | Est. sequestration: " (sequestration l) ""
          ++ suffix_text " | Stock: " (stock l) "") /\
     (nullish (stock l) = true ->
      project_text l
      = "Project: " ++ to_string (projectName l)
          ++ suffix_text " | Location: " (location l) ""
          ++ suffix_text " | Est. sequestration: " (sequestration l) ""
          ++ suffix_text " | Price: " (price l) "")) /\
  (forall l, takes_row_branch doc l ->
     summary_of (doc, score) = Returned (JStr (row_text l)) /\
     (has_text doc -> nullish (nama l) = false) /\
     (nullish (luas l) = true ->
      row_text l
      = "Location: " ++ to_string (nama l)
          ++ suffix_text " | Carbon captured: " (karbon l) ""
          ++ suffix_text " | Rating: " (rating l) "") /\
     (nullish (karbon l) = true ->
      row_text l
      = "Location: " ++ to_string (nama l)
          ++ suffix_text " | Area: " (luas l) " ha"
          ++ suffix_text " | Rating: " (rating l) "") /\
     (nullish (rating l) = true ->
      row_text l
      = "Location: " ++ to_string (nama l)
          ++ suffix_text " | Area: " (luas l) " ha"
          ++ suffix_text " | Carbon captured: " (karbon l) "")).
Proof.
  intros Hdoc Hplain. split; [|split].
  - eapply returns_weaken; [now apply normalize_hit_returns | intros; exact I].
  - intros l Hl. split.
    { apply project_branch_text; [exact Hl|]. now apply (project_branch_printable doc). }
    split; [now apply project_name_resolved|].
    unfold project_text.
    repeat split; intro H; apply nullish_falsy in H;
      rewrite (suffix_text_falsy _ _ _ H); simpl;
      rewrite ?append_empty_r; reflexivity.
  - intros l Hl. split.
    { apply row_branch_text; [exact Hl|]. now apply (row_branch_printable doc). }
    split; [now apply row_name_resolved|].
    unfold row_text.
    repeat split; intro H; apply nullish_falsy in H;
      rewrite (suffix_text_falsy _ _ _ H); simpl;
      rewrite ?append_empty_r; reflexivity.
Qed.

(** X26, instance: the project record of Mangrove Bay, which has no
    sequestration field. *)
Lemma normalizer_omits_missing_fields_witness :
  returns_where any (normalize_hit (doc_mangrove, num 1)) /\
  summary_of (doc_mangrove, num 1)
  = Returned (JStr "Project: Mangrove Bay | Location: Bali | Price: 50") /\
  project_text mangrove_locals
  = "Project: " ++ "Mangrove Bay"
      ++ suffix_text " | Location: " (JStr "Bali") ""
      ++ suffix_text " | Price: " (num 50) ""
      ++ suffix_text " | Stock: " (num 0) "".
Proof.
  destruct (normalizer_omits_missing_fields doc_mangrove (num 1) eq_refl eq_refl)
    as [Hret [Hproject _]].
  destruct (Hproject mangrove_locals takes_project_branch_mangrove)
    as [Hsum [_ [_ [Hseq _]]]].
  split; [exact Hret|]. split; [exact Hsum|]. exact (Hseq eq_refl).
Defined.

(** C10.  In the project-record and tabular-row branches a suffix appears
    only for a truthy value, and a value of 0 or the empty string gives no
    suffix and is not even converted.  The summary of a hit is what the
    template literal of its branch yields, and that is what it yields when
    every one of location, sequestration, price, stock (area, carbon,
    rating) whose value is 0 or the empty string is missing instead. *)
Theorem falsy_optional_fields_omitted (doc score : jsval) :
  (forall label v tail s,
      opt_suffix label v tail = ret s -> s <> "" -> truthy v = true) /\
  (forall label v tail, zero_or_empty v = true -> opt_suffix label v tail = ret "") /\
  (forall l, takes_project_branch doc l ->
     summary_of (doc, score) = summary_from (project_summary l) /\
     project_summary l = project_summary (project_as_absent l) /\
     (printable_project l = true ->
      summary_of (doc, score) = Returned (JStr (project_text (project_as_absent l))))) /\
  (forall l, takes_row_branch doc l ->
     summary_of (doc, score) = summary_from (row_summary l) /\
     row_summary l = row_summary (row_as_absent l) /\
     (printable_row l = true ->
      summary_of (doc, score) = Returned (JStr (row_text (row_as_absent l))))).
Proof.
  split; [|split; [|split]].
  - intros label v tail s Hs Hne. destruct (truthy v) eqn:E; [reflexivity|].
    rewrite (opt_suffix_falsy _ _ _ E) in Hs. apply ret_inj in Hs. congruence.
  - intros label v tail H. now apply opt_suffix_falsy, zero_or_empty_falsy.
  - intros l Hl. split; [now apply project_branch_summary|]. split.
    + unfold project_summary, project_as_absent. simpl.
      now rewrite !opt_suffix_as_absent.
    + intro Hprint. rewrite (project_branch_text _ _ _ Hl Hprint).
      unfold project_text, project_as_absent. simpl.
      now rewrite !suffix_text_as_absent.
  - intros l Hl. split; [now apply row_branch_summary|]. split.
    + unfold row_summary, row_as_absent. simpl.
      now rewrite !opt_suffix_as_absent.
    + intro Hprint. rewrite (row_branch_text _ _ _ Hl Hprint).
      unfold row_text, row_as_absent. simpl.
      now rewrite !suffix_text_as_absent.
Qed.

(** C10, instance: a stock of 0 in a project record, and an empty rating in
    a row. *)
Lemma falsy_optional_fields_omitted_witness :
  summary_of (doc_mangrove, num 1)
  = Returned (JStr (project_text (project_as_absent mangrove_locals))) /\
  project_summary mangrove_locals = project_summary (project_as_absent mangrove_locals) /\
  summary_of (doc_kalimantan, num 1)
  = Returned (JStr (row_text (row_as_absent kalimantan_locals))) /\
  row_summary kalimantan_locals = row_summary (row_as_absent kalimantan_locals) /\
  opt_suffix " | Stock: " (num 0) "" = ret "" /\
  opt_suffix " | Rating: " (JStr "") "" = ret "".
Proof.
  destruct (falsy_optional_fields_omitted doc_mangrove (num 1))
    as [_ [Hzero [Hproject _]]].
  destruct (falsy_optional_fields_omitted doc_kalimantan (num 1))
    as [_ [_ [_ Hrow]]].
  destruct (Hproject mangrove_locals takes_project_branch_mangrove) as [_ [H2 H1]].
  destruct (Hrow kalimantan_locals takes_row_branch_kalimantan) as [_ [H4 H3]].
  repeat split; try assumption;
    first [apply H1; reflexivity | apply H3; reflexivity | apply Hzero; reflexivity].
Defined.

(* ===================================================================== *)
(** ** The vector_search tool: theorems *)
(* ===================================================================== *)

(** What the [try] block ends with, step by step. *)
Lemma vectorSearchTool_body_result (env : environment) (query : string) (n : Z) :
  result (vectorSearchTool_body env query n)
  = match countDocuments env with
    | Thrown err => Thrown err
    | Returned total =>
        if is_num total 0 then Returned (JSON_stringify empty_db_envelope)
        else
          match newEmbeddings env with
          | Thrown err => Thrown err
          | Returned _ =>
              match newVectorStore env with
              | Thrown err => Thrown err
              | Returned _ =>
                  match result (retryWithBackoff (similaritySearchWithScore env query n) 3) with
                  | Thrown err => Thrown err
                  | Returned rawResults =>
                      match result (normalize_all rawResults) with
                      | Thrown err => Thrown err
                      | Returned normalized =>
                          Returned (JSON_stringify (success_envelope normalized query))
                      end
                  end
              end
          end
    end.
Proof.
  unfold vectorSearchTool_body, emit, perform.
  remember (retryWithBackoff (similaritySearchWithScore env query n) 3) as search.
  destruct (countDocuments env) as [total|err]; [|reflexivity].
  simpl. destruct (is_num total 0); [reflexivity|].
  destruct (newEmbeddings env) as [[]|err]; [|reflexivity].
  destruct (newVectorStore env) as [[]|err]; [|reflexivity].
  destruct search as [t [rawResults|err]]; [|reflexivity].
  simpl. destruct (normalize_all rawResults) as [t' [normalized|err]]; reflexivity.
Qed.

(** The tool returns: the text of its [try] block, or the search_error
    envelope of whatever the block threw. *)
Lemma vectorSearchTool_result (env : environment) (query : string) (n : option Z) :
  result (vectorSearchTool env query n)
  = match result (vectorSearchTool_body env query (n_or_default n)) with
    | Returned text => Returned text
    | Thrown err => Returned (JSON_stringify (search_error_envelope err query))
    end.
Proof.
  unfold vectorSearchTool. rewrite result_try_catch.
  destruct (result (vectorSearchTool_body env query (n_or_default n))); reflexivity.
Qed.

(** C5.  For every environment, query and result count the tool returns;
    it never throws.  What it returns is an envelope: the search_error
    envelope, carrying the message of the error and the query, whenever
    counting, constructing the clients, the retried search or the
    normalisation throws; the empty_db envelope when the count is 0; and
    otherwise the success envelope: the normalised hits as [results],
    [searchType] "vector", the query, and their number as [count]. *)
Theorem vectorSearchTool_never_throws (env : environment) (query : string) (n : option Z) :
  exists v,
    result (vectorSearchTool env query n) = Returned (JSON_stringify v) /\
    match countDocuments env with
    | Thrown err => is_search_error_envelope v err query
    | Returned total =>
        if is_num total 0 then is_empty_db_envelope v
        else
          match newEmbeddings env, newVectorStore env with
          | Thrown err, _ => is_search_error_envelope v err query
          | Returned _, Thrown err => is_search_error_envelope v err query
          | Returned _, Returned _ =>
              match result (retryWithBackoff
                              (similaritySearchWithScore env query (n_or_default n)) 3) with
              | Thrown err => is_search_error_envelope v err query
              | Returned rawResults =>
                  match result (normalize_all rawResults) with
                  | Thrown err => is_search_error_envelope v err query
                  | Returned normalized => is_success_envelope v normalized query
                  end
              end
          end
    end /\
    (forall v' err msg,
        is_search_error_envelope v' err query ->
        opt_get err "message" = JStr msg ->
        opt_get v' "details" = JStr msg).
Proof.
  rewrite vectorSearchTool_result, vectorSearchTool_body_result.
  assert (Hdetails : forall v' err msg,
        is_search_error_envelope v' err query ->
        opt_get err "message" = JStr msg ->
        opt_get v' "details" = JStr msg).
  { intros v' err msg [_ [_ [Hd _]]] Hmsg. rewrite Hd, Hmsg. reflexivity. }
  assert (Herror : forall err,
             is_search_error_envelope (search_error_envelope err query) err query).
  { intro err. repeat split. }
  destruct (countDocuments env) as [total|err];
    [|eexists; split; [reflexivity|]; split; [apply Herror | exact Hdetails]].
  destruct (is_num total 0).
  { eexists. split; [reflexivity|]. split; [repeat split | exact Hdetails]. }
  destruct (newEmbeddings env) as [[]|err];
    [|eexists; split; [reflexivity|]; split; [apply Herror | exact Hdetails]].
  destruct (newVectorStore env) as [[]|err];
    [|eexists; split; [reflexivity|]; split; [apply Herror | exact Hdetails]].
  destruct (result (retryWithBackoff _ 3)) as [rawResults|err];
    [|eexists; split; [reflexivity|]; split; [apply Herror | exact Hdetails]].
  destruct (result (normalize_all rawResults)) as [normalized|err];
    [|eexists; split; [reflexivity|]; split; [apply Herror | exact Hdetails]].
  eexists. split; [reflexivity|]. split; [repeat split | exact Hdetails].
Qed.

(** C5, instance: a search that stays rate limited ends in the
    search_error envelope, which carries the message of the 429 error. *)
Lemma vectorSearchTool_never_throws_witness :
  exists v,
    result (vectorSearchTool env_rate_limited "mangrove" None)
    = Returned (JSON_stringify v) /\
    is_search_error_envelope v rate_limit_error "mangrove" /\
    opt_get v "details" = JStr "Too Many Requests".
Proof.
  destruct (vectorSearchTool_never_throws env_rate_limited "mangrove" None)
    as [v [Hv [Hshape Hdetails]]].
  exists v. split; [exact Hv|]. split; [exact Hshape|].
  exact (Hdetails v rate_limit_error "Too Many Requests" Hshape eq_refl).
Defined.

(** C7.  When the collection counts 0 documents the tool returns the
    empty_db envelope ([error] "empty_db", [count] 0) right after the count:
    its whole trace is the log line and the count, with no embeddings
    client, no vector store and no similarity search. *)
Theorem empty_collection_short_circuit (env : environment) (query : string) (n : option Z) :
  countDocuments env = Returned (num 0) ->
  result (vectorSearchTool env query n) = Returned (JSON_stringify empty_db_envelope) /\
  opt_get empty_db_envelope "error" = JStr "empty_db" /\
  opt_get empty_db_envelope "count" = num 0 /\
  trace (vectorSearchTool env query n)
  = [EvToolLog query (n_or_default n); EvCountDocuments] /\
  ~ In EvNewEmbeddings (trace (vectorSearchTool env query n)) /\
  ~ In EvNewVectorStore (trace (vectorSearchTool env query n)) /\
  invocations (trace (vectorSearchTool env query n)) = 0%nat.
Proof.
  intro Hcount.
  assert (Hrun : vectorSearchTool env query n
                 = ([EvToolLog query (n_or_default n); EvCountDocuments],
                    Returned (JSON_stringify empty_db_envelope))).
  { unfold vectorSearchTool, vectorSearchTool_body, perform.
    rewrite Hcount. reflexivity. }
  rewrite Hrun. simpl.
  repeat split; try reflexivity; intros [H|[H|[]]]; discriminate H.
Qed.

(** C7, instance: the empty collection, queried for ["mangrove"]. *)
Lemma empty_collection_short_circuit_witness :
  result (vectorSearchTool env_empty "mangrove" None)
  = Returned (JSON_stringify empty_db_envelope) /\
  opt_get empty_db_envelope "error" = JStr "empty_db" /\
  opt_get empty_db_envelope "count" = num 0 /\
  trace (vectorSearchTool env_empty "mangrove" None)
  = [EvToolLog "mangrove" (n_or_default None); EvCountDocuments] /\
  ~ In EvNewEmbeddings (trace (vectorSearchTool env_empty "mangrove" None)) /\
  ~ In EvNewVectorStore (trace (vectorSearchTool env_empty "mangrove" None)) /\
  invocations (trace (vectorSearchTool env_empty "mangrove" None)) = 0%nat.
Proof.
  apply (empty_collection_short_circuit env_empty "mangrove" None). reflexivity.
Defined.

(** C3, counterexample: the empty_db envelope has the fields [error],
    [message], [count] and carries no query; the search_error envelope has
    the fields [error], [details], [query] and no [message] field. *)
Lemma error_envelope_shape_counterexample :
  (exists v,
      result (vectorSearchTool env_empty "mangrove" None) = Returned (JSON_stringify v) /\
      field_names v = ["error"; "message"; "count"] /\
      has_field v "query" = false) /\
  (exists v,
      result (vectorSearchTool env_rate_limited "mangrove" None)
      = Returned (JSON_stringify v) /\
      field_names v = ["error"; "details"; "query"] /\
      has_field v "message" = false).
Proof.
  split; eexists; repeat split.
Qed.

(** C3 (as amended).  An error envelope returned by the tool is one of two:
    the empty_db envelope, with exactly the fields [error], [message] and
    [count] (no [query]); or a search_error envelope, with exactly the
    fields [error], [details] and [query] (no [message]), where [query] is
    the original query string and [details] is the error's message. *)
Theorem error_envelope_shapes (env : environment) (query : string) (n : option Z)
        (v : jsval) :
  result (vectorSearchTool env query n) = Returned (JSON_stringify v) ->
  has_field v "error" = true ->
  (v = empty_db_envelope /\
   field_names v = ["error"; "message"; "count"] /\
   opt_get v "error" = JStr "empty_db" /\
   has_field v "query" = false) \/
  (exists err,
      v = search_error_envelope err query /\
      field_names v = ["error"; "details"; "query"] /\
      opt_get v "error" = JStr "search_error" /\
      opt_get v "details" = nc (opt_get err "message") (JStr (to_string err)) /\
      opt_get v "query" = JStr query /\
      has_field v "message" = false).
Proof.
  rewrite vectorSearchTool_result, vectorSearchTool_body_result.
  intros Hres Herr.
  assert (Hse : forall err, Returned (JSON_stringify (search_error_envelope err query))
                            = Returned (JSON_stringify v) ->
                exists err, v = search_error_envelope err query /\
      field_names v = ["error"; "details"; "query"] /\
      opt_get v "error" = JStr "search_error" /\
      opt_get v "details" = nc (opt_get err "message") (JStr (to_string err)) /\
      opt_get v "query" = JStr query /\
      has_field v "message" = false).
  { intros err H. injection H as H. subst v. exists err. repeat split. }
  destruct (countDocuments env) as [total|err]; [|right; now apply (Hse err)].
  destruct (is_num total 0).
  { left. injection Hres as Hres. subst v. repeat split. }
  destruct (newEmbeddings env) as [[]|err]; [|right; now apply (Hse err)].
  destruct (newVectorStore env) as [[]|err]; [|right; now apply (Hse err)].
  destruct (result (retryWithBackoff _ 3)) as [rawResults|err];
    [|right; now apply (Hse err)].
  destruct (result (normalize_all rawResults)) as [normalized|err];
    [|right; now apply (Hse err)].
  injection Hres as Hres. subst v. discriminate Herr.
Qed.

(** C3, instance: the envelope of a search that stays rate limited. *)
Lemma error_envelope_shapes_witness :
  (search_error_envelope rate_limit_error "mangrove" = empty_db_envelope /\
   field_names (search_error_envelope rate_limit_error "mangrove")
   = ["error"; "message"; "count"] /\
   opt_get (search_error_envelope rate_limit_error "mangrove") "error" = JStr "empty_db" /\
   has_field (search_error_envelope rate_limit_error "mangrove") "query" = false) \/
  (exists err,
      search_error_envelope rate_limit_error "mangrove"
      = search_error_envelope err "mangrove" /\
      field_names (search_error_envelope rate_limit_error "mangrove")
      = ["error"; "details"; "query"] /\
      opt_get (search_error_envelope rate_limit_error "mangrove") "error"
      = JStr "search_error" /\
      opt_get (search_error_envelope rate_limit_error "mangrove") "details"
      = nc (opt_get err "message") (JStr (to_string err)) /\
      opt_get (search_error_envelope rate_limit_error "mangrove") "query"
      = JStr "mangrove" /\
      has_field (search_error_envelope rate_limit_error "mangrove") "message" = false).
Proof.
  apply (error_envelope_shapes env_rate_limited "mangrove" None
           (search_error_envelope rate_limit_error "mangrove"));
    reflexivity.
Defined.

(** The success path, on a collection that answers two hits: both are
    normalised, in order, and counted. *)
Example vectorSearchTool_two_hits :
  exists first second,
    result (vectorSearchTool env_two_hits "mangrove" None)
    = Returned (JSON_stringify (success_envelope [first; second] "mangrove")) /\
    opt_get first "summary" = JStr "Project: Mangrove Bay | Location: Bali | Price: 50" /\
    opt_get second "summary" = JStr "Location: Kalimantan Site A | Area: 120 ha" /\
    opt_get (success_envelope [first; second] "mangrove") "count" = num 2.
Proof. eexists; eexists. repeat split. Qed.

(* ===================================================================== *)
(** ** retryWithBackoff: how every run ends *)
(* ===================================================================== *)

Lemma sleeps_app (t1 t2 : list event) : sleeps (t1 ++ t2) = (sleeps t1 ++ sleeps t2)%list.
Proof. unfold sleeps. apply flat_map_app. Qed.

Lemma sleeps_retries (a k : nat) :
  sleeps (retries_trace a k) = map (fun i => backoff_delay (Z.of_nat i)) (seq a k).
Proof.
  revert a. induction k as [|k IH]; intro a; [reflexivity|].
  simpl. unfold sleeps in *. simpl. now rewrite IH.
Qed.

Lemma backoff_delay_range (attempt : Z) :
  1 <= attempt -> 2000 <= backoff_delay attempt <= 30000.
Proof.
  intro H. unfold backoff_delay.
  assert (2 ^ 1 <= 2 ^ attempt) by (apply Z.pow_le_mono_r; lia).
  change (2 ^ 1) with 2 in *. lia.
Qed.

Section RetryRuns.
Context {T : Type}.
Variable fn : @operation T.
Variable maxRetries : Z.

(** Among the attempts [a .. a + m], the last of which is [maxRetries],
    some call ends the loop, all calls before it being rate limited. *)
Lemma ending_call_exists (m : nat) : forall (a c : nat),
  Z.of_nat (a + m) = maxRetries ->
  exists k, (k <= m)%nat /\
    (forall i, (i < k)%nat -> exists err, fn (c + i)%nat = Thrown err /\ isRate err = true) /\
    ends_loop maxRetries (fn (c + k)%nat) (Z.of_nat (a + k)).
Proof.
  induction m as [|m IH]; intros a c Hmax.
  - exists 0%nat. split; [lia|]. split; [intros i Hi; lia|].
    rewrite !Nat.add_0_r in *. unfold ends_loop.
    destruct (fn c) as [v|err]; [exact I|].
    rewrite Hmax, Z.ltb_irrefl. apply andb_false_r.
  - destruct (fn c) as [v|err] eqn:Hc.
    + exists 0%nat. split; [lia|]. split; [intros i Hi; lia|].
      rewrite !Nat.add_0_r. rewrite Hc. exact I.
    + destruct (isRate err) eqn:Hrate.
      * destruct (IH (S a) (S c)) as [k [Hk [Hfail Hend]]]; [lia|].
        exists (S k). split; [lia|]. split.
        -- intros [|i] Hi.
           ++ rewrite Nat.add_0_r. exists err. split; assumption.
           ++ replace (c + S i)%nat with (S c + i)%nat by lia. apply Hfail. lia.
        -- replace (c + S k)%nat with (S c + k)%nat by lia.
           replace (a + S k)%nat with (S a + k)%nat by lia. exact Hend.
      * exists 0%nat. split; [lia|]. split; [intros i Hi; lia|].
        rewrite !Nat.add_0_r. rewrite Hc. simpl. rewrite Hrate. reflexivity.
Qed.

(** With a budget of at least 1, a run is [k] rate-limited calls, each
    followed by its log line and sleep, and one last call. *)
Lemma retry_run_shape :
  1 <= maxRetries ->
  exists k, Z.of_nat k < maxRetries /\
    retryWithBackoff fn maxRetries = ((retries_trace 1 k ++ [EvInvoke])%list, fn k) /\
    (forall i, (i < k)%nat -> exists err, fn i = Thrown err /\ isRate err = true) /\
    ends_loop maxRetries (fn k) (Z.of_nat (S k)).
Proof.
  intro Hmax.
  destruct (ending_call_exists (Z.to_nat maxRetries - 1) 1 0) as [k [Hk [Hfail Hend]]];
    [lia|].
  exists k. split; [lia|]. split; [|split; assumption].
  unfold retryWithBackoff, attempts_upto.
  rewrite (retry_loop_run fn maxRetries k 1 0 (Z.to_nat maxRetries));
    [reflexivity | exact Hfail | lia | lia | exact Hend].
Qed.

(** X1.  After [k] rate-limited calls ([k < maxRetries]) an error that is
    not a rate-limit error is thrown on at once: it is the result of the
    helper, unchanged, after exactly [k + 1] calls and [k] sleeps.  For
    [k = 0]: one call, no sleep. *)
Theorem retry_other_error_propagates (k : nat) (err : jsval) :
  Z.of_nat k < maxRetries ->
  (forall i, (i < k)%nat -> exists e, fn i = Thrown e /\ isRate e = true) ->
  fn k = Thrown err ->
  isRate err = false ->
  result (retryWithBackoff fn maxRetries) = Thrown err /\
  invocations (trace (retryWithBackoff fn maxRetries)) = S k /\
  length (sleeps (trace (retryWithBackoff fn maxRetries))) = k.
Proof.
  intros Hk Hfail Hcall Hrate.
  unfold retryWithBackoff, attempts_upto.
  rewrite (retry_loop_run fn maxRetries k 1 0 (Z.to_nat maxRetries)).
  - simpl. split; [exact Hcall|]. split.
    + rewrite invocations_app, invocations_retries.
      change (invocations [EvInvoke]) with 1%nat. lia.
    + rewrite sleeps_app, sleeps_retries, length_app, length_map, length_seq.
      simpl. lia.
  - exact Hfail.
  - lia.
  - lia.
  - simpl. rewrite Hcall. simpl. rewrite Hrate. reflexivity.
Qed.

(** X2.  Whatever the operation does, the helper calls it at most
    [maxRetries] times; and with a budget of at least 1 it calls it at least
    once, its result is the outcome of the last call, and every earlier call
    failed with a rate-limit error. *)
Theorem retry_result_is_last_call :
  (invocations (trace (retryWithBackoff fn maxRetries)) <= Z.to_nat maxRetries)%nat /\
  (1 <= maxRetries ->
   exists k,
     invocations (trace (retryWithBackoff fn maxRetries)) = S k /\
     result (retryWithBackoff fn maxRetries) = fn k /\
     forall i, (i < k)%nat -> exists err, fn i = Thrown err /\ isRate err = true).
Proof.
  assert (Hshape : 1 <= maxRetries ->
     exists k, Z.of_nat k < maxRetries /\
       invocations (trace (retryWithBackoff fn maxRetries)) = S k /\
       result (retryWithBackoff fn maxRetries) = fn k /\
       forall i, (i < k)%nat -> exists err, fn i = Thrown err /\ isRate err = true).
  { intro Hmax. destruct (retry_run_shape Hmax) as [k [Hk [Hrun [Hfail _]]]].
    exists k. rewrite Hrun. simpl. repeat split; try assumption.
    rewrite invocations_app, invocations_retries.
    change (invocations [EvInvoke]) with 1%nat. lia. }
  split.
  - destruct (Z.le_gt_cases 1 maxRetries) as [Hmax|Hmax].
    + destruct (Hshape Hmax) as [k [Hk [Hn _]]]. rewrite Hn. lia.
    + unfold retryWithBackoff, attempts_upto.
      replace (Z.to_nat maxRetries) with 0%nat by lia. apply Nat.le_refl.
  - intro Hmax. destruct (Hshape Hmax) as [k [_ H]]. exists k. exact H.
Qed.

(** X3.  The sleeps of a run follow the schedule: the [i]-th sleep lasts
    [min(1000 * 2^i, 30000)] ms, for [i = 1, 2, ...], and every sleep lasts
    between 2000 and 30000 ms.  With a budget of at least 1 there is exactly
    one sleep less than there are calls; with a budget of 0 or less there is
    no call and no sleep. *)
Theorem retry_sleep_schedule :
  sleeps (trace (retryWithBackoff fn maxRetries))
  = map (fun i => backoff_delay (Z.of_nat i))
        (seq 1 (length (sleeps (trace (retryWithBackoff fn maxRetries))))) /\
  (1 <= maxRetries ->
   invocations (trace (retryWithBackoff fn maxRetries))
   = S (length (sleeps (trace (retryWithBackoff fn maxRetries))))) /\
  (maxRetries <= 0 ->
   invocations (trace (retryWithBackoff fn maxRetries)) = 0%nat /\
   sleeps (trace (retryWithBackoff fn maxRetries)) = []) /\
  Forall (fun d => 2000 <= d <= 30000) (sleeps (trace (retryWithBackoff fn maxRetries))).
Proof.
  assert (Hzero : maxRetries <= 0 -> trace (retryWithBackoff fn maxRetries) = []).
  { intro Hle. unfold retryWithBackoff, attempts_upto.
    replace (Z.to_nat maxRetries) with 0%nat by lia. reflexivity. }
  assert (Hshape : 1 <= maxRetries ->
            exists k, sleeps (trace (retryWithBackoff fn maxRetries))
                      = map (fun i => backoff_delay (Z.of_nat i)) (seq 1 k) /\
                      invocations (trace (retryWithBackoff fn maxRetries)) = S k).
  { intro Hmax. destruct (retry_run_shape Hmax) as [k [_ [Hrun _]]].
    exists k. rewrite Hrun. simpl.
    rewrite sleeps_app, sleeps_retries, invocations_app, invocations_retries.
    change (invocations [EvInvoke]) with 1%nat. simpl. rewrite app_nil_r.
    split; [reflexivity | lia]. }
  assert (Hsched : sleeps (trace (retryWithBackoff fn maxRetries))
    = map (fun i => backoff_delay (Z.of_nat i))
          (seq 1 (length (sleeps (trace (retryWithBackoff fn maxRetries)))))).
  { destruct (Z.le_gt_cases 1 maxRetries) as [Hmax|Hmax].
    - destruct (Hshape Hmax) as [k [Hs _]].
      rewrite Hs at 2. rewrite length_map, length_seq. exact Hs.
    - rewrite Hzero by lia. reflexivity. }
  split; [exact Hsched|]. split; [|split].
  - intro Hmax. destruct (Hshape Hmax) as [k [Hs Hn]].
    rewrite Hn, Hs, length_map, length_seq. reflexivity.
  - intro Hle. rewrite (Hzero Hle). split; reflexivity.
  - rewrite Hsched. apply Forall_forall. intros d Hd.
    apply in_map_iff in Hd. destruct Hd as [i [Hi Hin]]. subst d.
    apply in_seq in Hin. apply backoff_delay_range. lia.
Qed.

End RetryRuns.

(** X4.  The delay doubles from 2000 ms and is capped: it is
    [1000 * 2^attempt] for the attempts 1 to 4, it is 30000 from the fifth
    attempt on, and it never decreases from one attempt to the next. *)
Theorem backoff_delay_doubles_then_caps (attempt : Z) :
  1 <= attempt ->
  (attempt <= 4 -> backoff_delay attempt = 1000 * 2 ^ attempt) /\
  (5 <= attempt -> backoff_delay attempt = 30000) /\
  backoff_delay attempt <= backoff_delay (attempt + 1) /\
  2000 <= backoff_delay attempt <= 30000.
Proof.
  intro H1. unfold backoff_delay. repeat split.
  - intro H4.
    assert (2 ^ attempt <= 2 ^ 4) by (apply Z.pow_le_mono_r; lia).
    change (2 ^ 4) with 16 in *. lia.
  - intro H5.
    assert (2 ^ 5 <= 2 ^ attempt) by (apply Z.pow_le_mono_r; lia).
    change (2 ^ 5) with 32 in *. lia.
  - assert (2 ^ attempt <= 2 ^ (attempt + 1)) by (apply Z.pow_le_mono_r; lia). lia.
  - assert (2 ^ 1 <= 2 ^ attempt) by (apply Z.pow_le_mono_r; lia).
    change (2 ^ 1) with 2 in *. lia.
  - lia.
Qed.

(** X1, instance: one rate-limited call, then an authentication error. *)
Lemma retry_other_error_propagates_witness :
  result (retryWithBackoff rate_limited_then_unauthorized 3) = Thrown unauthorized_error /\
  invocations (trace (retryWithBackoff rate_limited_then_unauthorized 3)) = 2%nat /\
  length (sleeps (trace (retryWithBackoff rate_limited_then_unauthorized 3))) = 1%nat.
Proof.
  apply (retry_other_error_propagates rate_limited_then_unauthorized 3 1 unauthorized_error).
  - reflexivity.
  - intros i Hi. exists rate_limit_error.
    replace i with 0%nat by lia. split; reflexivity.
  - reflexivity.
  - reflexivity.
Defined.

(** X2, instance: the operation that is rate limited twice, with a budget of 3. *)
Lemma retry_result_is_last_call_witness :
  exists k,
    invocations (trace (retryWithBackoff rate_limited_twice 3)) = S k /\
    result (retryWithBackoff rate_limited_twice 3) = rate_limited_twice k /\
    forall i, (i < k)%nat ->
              exists err, rate_limited_twice i = Thrown err /\ isRate err = true.
Proof.
  apply (proj2 (retry_result_is_last_call rate_limited_twice 3)). lia.
Defined.

(** X3, instances: two sleeps for three calls with a budget of 3; nothing
    at all with a budget of 0. *)
Lemma retry_sleep_schedule_witness :
  invocations (trace (retryWithBackoff always_rate_limited 3))
  = S (length (sleeps (trace (retryWithBackoff always_rate_limited 3)))) /\
  sleeps (trace (retryWithBackoff always_rate_limited 3)) = [2000; 4000] /\
  invocations (trace (retryWithBackoff always_rate_limited 0)) = 0%nat /\
  sleeps (trace (retryWithBackoff always_rate_limited 0)) = [].
Proof.
  destruct (retry_sleep_schedule always_rate_limited 3) as [_ [Hcalls _]].
  destruct (retry_sleep_schedule always_rate_limited 0) as [_ [_ [Hnone _]]].
  split; [apply Hcalls; lia|]. split; [reflexivity|]. apply Hnone. lia.
Defined.

(** X4, instance: the third attempt sleeps 8000 ms. *)
Lemma backoff_delay_doubles_then_caps_witness :
  (3 <= 4 -> backoff_delay 3 = 1000 * 2 ^ 3) /\
  (5 <= 3 -> backoff_delay 3 = 30000) /\
  backoff_delay 3 <= backoff_delay (3 + 1) /\
  2000 <= backoff_delay 3 <= 30000.
Proof.
  apply (backoff_delay_doubles_then_caps 3). lia.
Defined.

(* ===================================================================== *)
(** ** The normalizer: branch order, the document-chunk branch, the record *)
(* ===================================================================== *)

Lemma has_char_append (c : ascii) (s1 s2 : string) :
  has_char c (s1 ++ s2) = has_char c s1 || has_char c s2.
Proof.
  induction s1 as [|c1 s1 IH]; simpl; [reflexivity|].
  rewrite IH. apply orb_assoc.
Qed.

Lemma split_on_no_separator (sep : ascii) (s : string) :
  Forall (fun part => has_char sep part = false) (split_on sep s).
Proof.
  induction s as [|c s IH]; simpl.
  - constructor; [reflexivity | constructor].
  - destruct (Ascii.eqb c sep) eqn:E.
    + constructor; [reflexivity | exact IH].
    + destruct (split_on sep s) as [|p ps].
      * constructor; [simpl; rewrite E; reflexivity | constructor].
      * inversion IH as [|? ? Hp Hps]; subst.
        constructor; [simpl; rewrite E; exact Hp | exact Hps].
Qed.

Lemma split_on_line (sep : ascii) (line rest : string) :
  has_char sep line = false ->
  split_on sep (line ++ String sep rest) = line :: split_on sep rest.
Proof.
  induction line as [|c line IH]; simpl; intro H.
  - rewrite Ascii.eqb_refl. reflexivity.
  - apply orb_false_iff in H. destruct H as [Hc Hline].
    rewrite Hc, (IH Hline). reflexivity.
Qed.

Lemma split_on_single (sep : ascii) (s : string) :
  has_char sep s = false -> split_on sep s = [s].
Proof.
  induction s as [|c s IH]; simpl; intro H; [reflexivity|].
  apply orb_false_iff in H. destruct H as [Hc Hs].
  rewrite Hc, (IH Hs). reflexivity.
Qed.

Lemma join_no_char (c : ascii) (sep : string) (parts : list string) :
  has_char c sep = false ->
  Forall (fun part => has_char c part = false) parts ->
  has_char c (join sep parts) = false.
Proof.
  intros Hsep Hparts. induction Hparts as [|p ps Hp Hps IH]; [reflexivity|].
  simpl. destruct ps as [|q qs]; [exact Hp|].
  rewrite !has_char_append, Hp, Hsep, IH. reflexivity.
Qed.

Lemma trim_start_no_char (c : ascii) (s : string) :
  has_char c s = false -> has_char c (trim_start s) = false.
Proof.
  induction s as [|c' s IH]; simpl; intro H; [reflexivity|].
  apply orb_false_iff in H. destruct H as [Hc Hs].
  destruct (is_space c'); [now apply IH | simpl; now rewrite Hc, Hs].
Qed.

Lemma trim_end_no_char (c : ascii) (s : string) :
  has_char c s = false -> has_char c (trim_end s) = false.
Proof.
  induction s as [|c' s IH]; simpl; intro H; [reflexivity|].
  apply orb_false_iff in H. destruct H as [Hc Hs].
  destruct (is_space c' && String.eqb (trim_end s) ""); [reflexivity|].
  simpl. now rewrite Hc, IH.
Qed.

Lemma trim_start_first (s : string) (c : ascii) :
  first_char (trim_start s) = Some c -> is_space c = false.
Proof.
  induction s as [|c' s IH]; simpl; [discriminate|].
  destruct (is_space c') eqn:E; [exact IH|].
  simpl. intro H. injection H as H. subst. exact E.
Qed.

Lemma trim_end_first (s : string) (c : ascii) :
  first_char s = Some c -> is_space c = false -> first_char (trim_end s) = Some c.
Proof.
  destruct s as [|c' s]; simpl; [discriminate|].
  intros H Hc. injection H as H. subst c'. rewrite Hc. reflexivity.
Qed.

Lemma trim_end_first_inv (s : string) (c : ascii) :
  first_char (trim_end s) = Some c -> first_char s = Some c.
Proof.
  destruct s as [|c' s]; simpl; [discriminate|].
  destruct (is_space c' && String.eqb (trim_end s) ""); [discriminate|].
  simpl. trivial.
Qed.

Lemma trim_end_last (s : string) (c : ascii) :
  last_char (trim_end s) = Some c -> is_space c = false.
Proof.
  induction s as [|c' s IH]; simpl; [discriminate|].
  destruct (is_space c') eqn:Hsp; simpl.
  - destruct (trim_end s) as [|d rest] eqn:Ht; simpl; [discriminate|].
    exact IH.
  - destruct (trim_end s) as [|d rest] eqn:Ht; simpl.
    + intro H. injection H as H. subst. exact Hsp.
    + exact IH.
Qed.

Lemma trim_is_trimmed (s : string) : is_trimmed (trim s).
Proof.
  unfold is_trimmed, trim. split; intros c H.
  - apply trim_end_first_inv in H. now apply (trim_start_first s).
  - now apply (trim_end_last (trim_start s)).
Qed.

Lemma is_project_by_shape (source meta : jsval) :
  nullish meta = false ->
  is_project source meta
  = ret (is_str source "dummyProjects" || truthy (opt_get meta "raw")).
Proof.
  intro Hm. unfold is_project.
  destruct (is_str source "dummyProjects"); [reflexivity|].
  rewrite (get_non_nullish _ _ Hm), bind_ret_l. reflexivity.
Qed.

(** X5.  The project-record branch comes first: a document whose source is
    ["dummyProjects"], or whose metadata carries a truthy [raw], is handled
    as a project record, whatever else it carries (a source ["csv"] or
    ["markdown"], a [row]): its summary is what the template literal of the
    project branch yields, a text starting with ["Project: "] when the
    values of that literal are convertible. *)
Theorem project_branch_has_precedence (doc score meta source : jsval) :
  is_document doc = true ->
  resolve_meta doc = ret meta ->
  resolve_source doc meta = ret source ->
  is_str source "dummyProjects" || truthy (opt_get meta "raw") = true ->
  exists l,
    takes_project_branch doc l /\
    summary_of (doc, score) = summary_from (project_summary l) /\
    (printable_project l = true ->
     summary_of (doc, score) = Returned (JStr (project_text l)) /\
     String.prefix "Project: " (project_text l) = true).
Proof.
  intros Hdoc Hmeta Hsource Hshape.
  destruct (resolve_meta_inv _ _ Hmeta) as [_ Hm].
  destruct (resolve_project_returns doc meta Hdoc Hm) as [l [Hl _]].
  assert (Hbranch : takes_project_branch doc l).
  { exists meta, source. repeat split; try assumption.
    rewrite (is_project_by_shape _ _ Hm), Hshape. reflexivity. }
  exists l. split; [exact Hbranch|].
  split; [now apply project_branch_summary|].
  intro Hprint. split; [now apply project_branch_text|].
  unfold project_text. simpl.
  destruct (to_string (projectName l) ++ _); reflexivity.
Qed.

(** X5, instance: a document of source ["csv"] with both a [raw] and a [row]. *)
Lemma project_branch_has_precedence_witness :
  exists l,
    takes_project_branch doc_raw_in_csv l /\
    summary_of (doc_raw_in_csv, num 1) = summary_from (project_summary l) /\
    (printable_project l = true ->
     summary_of (doc_raw_in_csv, num 1) = Returned (JStr (project_text l)) /\
     String.prefix "Project: " (project_text l) = true).
Proof.
  apply (project_branch_has_precedence doc_raw_in_csv (num 1)
           (JObj [("source", JStr "csv");
                  ("raw", JObj [("projectName", JStr "Peatland")]);
                  ("row", JObj [("nama_lokasi", JStr "Riau")])])
           (JStr "csv")); reflexivity.
Defined.

Lemma markdown_branch_summary (doc score : jsval) :
  is_document doc = true ->
  takes_markdown_branch doc ->
  summary_of (doc, score)
  = Returned (JStr ("Doc: " ++ trim (join " " (firstn 3 (split_on newline (content_text doc)))))).
Proof.
  intros Hdoc [meta [source [Hmeta [Hsource [Hp [Hr Hmd]]]]]].
  apply (summary_of_composed _ _ meta source); try assumption.
  rewrite (compose_other _ _ _ Hp Hr), Hmd.
  now apply markdown_summary_returns.
Qed.

(** X6.  The summary of a document chunk is ["Doc: "] followed by a snippet
    on one line: the snippet contains no line feed, and it neither starts
    nor ends with white space. *)
Theorem markdown_summary_is_one_trimmed_line (doc score : jsval) :
  is_document doc = true ->
  takes_markdown_branch doc ->
  exists snippet,
    summary_of (doc, score) = Returned (JStr ("Doc: " ++ snippet)) /\
    has_char newline snippet = false /\
    is_trimmed snippet.
Proof.
  intros Hdoc Hbranch. eexists. split; [now apply markdown_branch_summary|].
  split; [|apply trim_is_trimmed].
  unfold trim. apply trim_end_no_char, trim_start_no_char, join_no_char.
  - reflexivity.
  - pose proof (split_on_no_separator newline (content_text doc)) as H.
    rewrite <- (firstn_skipn 3 (split_on newline (content_text doc))) in H.
    apply Forall_app in H. exact (proj1 H).
Qed.

Lemma takes_markdown_branch_example : takes_markdown_branch doc_markdown.
Proof. eexists; eexists. repeat split. Qed.

(** X6, instance: a chunk of four lines, the first one indented. *)
Lemma markdown_summary_is_one_trimmed_line_witness :
  exists snippet,
    summary_of (doc_markdown, num 1) = Returned (JStr ("Doc: " ++ snippet)) /\
    has_char newline snippet = false /\
    is_trimmed snippet.
Proof.
  apply (markdown_summary_is_one_trimmed_line doc_markdown (num 1)).
  - reflexivity.
  - exact takes_markdown_branch_example.
Defined.

(** X7.  Only the first three lines of a document chunk reach its summary:
    when the content is three lines followed by more, the summary is
    ["Doc: "] and these three lines joined by single spaces, trimmed,
    whatever follows them; and a content of one line is summarised by that
    line, trimmed. *)
Theorem markdown_summary_first_three_lines (doc score : jsval) :
  is_document doc = true ->
  takes_markdown_branch doc ->
  (forall l1 l2 l3 more,
      has_char newline l1 = false ->
      has_char newline l2 = false ->
      has_char newline l3 = false ->
      content_text doc
      = l1 ++ String newline (l2 ++ String newline (l3 ++ String newline more)) ->
      summary_of (doc, score)
      = Returned (JStr ("Doc: " ++ trim (l1 ++ " " ++ l2 ++ " " ++ l3)))) /\
  (has_char newline (content_text doc) = false ->
   summary_of (doc, score) = Returned (JStr ("Doc: " ++ trim (content_text doc)))).
Proof.
  intros Hdoc Hbranch. split.
  - intros l1 l2 l3 more H1 H2 H3 Hcontent.
    rewrite (markdown_branch_summary _ _ Hdoc Hbranch), Hcontent.
    rewrite (split_on_line _ _ _ H1), (split_on_line _ _ _ H2), (split_on_line _ _ _ H3).
    reflexivity.
  - intro Hone.
    rewrite (markdown_branch_summary _ _ Hdoc Hbranch), (split_on_single _ _ Hone).
    reflexivity.
Qed.

(** X7, instance: the fourth line of the chunk, ["Annex A"], is left out. *)
Lemma markdown_summary_first_three_lines_witness :
  summary_of (doc_markdown, num 1)
  = Returned (JStr "Doc: # Carbon rules Scope Limits").
Proof.
  destruct (markdown_summary_first_three_lines doc_markdown (num 1) eq_refl
              takes_markdown_branch_example) as [Hthree _].
  exact (Hthree "  # Carbon rules" "Scope" "Limits" "Annex A"
                eq_refl eq_refl eq_refl eq_refl).
Defined.

Lemma get_opt_value (v : jsval) (k : string) : get_opt v k = ret (opt_get v k).
Proof.
  unfold get_opt. destruct (nullish v) eqn:E.
  - destruct v; try discriminate E; reflexivity.
  - now apply get_non_nullish.
Qed.

Lemma resolve_meta_value (doc : jsval) :
  nullish doc = false ->
  resolve_meta doc = ret (nc (opt_get doc "metadata") empty_object).
Proof.
  intro Hd. unfold resolve_meta, nc.
  rewrite (get_non_nullish _ _ Hd), coalesce_ret.
  destruct (nullish (opt_get doc "metadata")); reflexivity.
Qed.

Lemma opt_get_meta (metadata : jsval) (k : string) :
  opt_get (nc metadata empty_object) k = opt_get metadata k.
Proof. unfold nc. destruct metadata; reflexivity. Qed.

Lemma resolve_source_value (doc meta : jsval) :
  nullish doc = false -> nullish meta = false ->
  resolve_source doc meta
  = ret (nc (opt_get meta "source") (nc (opt_get doc "source") (JStr "unknown"))).
Proof.
  intros Hd Hm. unfold resolve_source, nc.
  rewrite (get_non_nullish _ _ Hd), (get_non_nullish _ _ Hm), coalesce_ret.
  destruct (nullish (opt_get meta "source")); [|reflexivity].
  rewrite coalesce_ret. destruct (nullish (opt_get doc "source")); reflexivity.
Qed.

Lemma resolve_id_value (doc meta : jsval) :
  nullish doc = false -> nullish meta = false ->
  resolve_id doc meta
  = ret (nc (opt_get (opt_get doc "metadata") "_id")
            (nc (opt_get doc "_id") (opt_get meta "_id"))).
Proof.
  intros Hd Hm. unfold resolve_id, nc.
  rewrite !(get_non_nullish _ _ Hd), (get_non_nullish _ _ Hm), bind_ret_l.
  rewrite get_opt_value, coalesce_ret.
  destruct (nullish (opt_get (opt_get doc "metadata") "_id")); [|reflexivity].
  rewrite coalesce_ret. destruct (nullish (opt_get doc "_id")); reflexivity.
Qed.

(** The record a document is normalised to, field by field, given the
    summary its branch composed. *)
Lemma normalize_hit_record (doc score : jsval) :
  is_document doc = true ->
  exists meta source,
    resolve_meta doc = ret meta /\
    resolve_source doc meta = ret source /\
    nullish meta = false /\
    forall summary,
      compose_summary doc meta source = ret summary ->
      normalize_hit (doc, score)
      = ret (JObj [("id", nc (opt_get (opt_get doc "metadata") "_id")
                             (nc (opt_get doc "_id")
                                 (opt_get (opt_get doc "metadata") "_id")));
                   ("score", score);
                   ("source", nc (opt_get (opt_get doc "metadata") "source")
                                 (nc (opt_get doc "source") (JStr "unknown")));
                   ("summary", summary);
                   ("full", doc)]).
Proof.
  intro Hdoc. pose proof (document_non_nullish _ Hdoc) as Hd.
  pose proof (resolve_meta_value doc Hd) as Hmeta.
  destruct (resolve_meta_inv _ _ Hmeta) as [_ Hm].
  pose proof (resolve_source_value doc _ Hd Hm) as Hsource.
  pose proof (resolve_id_value doc _ Hd Hm) as Hid.
  eexists. eexists. split; [exact Hmeta|]. split; [exact Hsource|].
  split; [exact Hm|].
  intros summary Hs. unfold normalize_hit.
  rewrite Hmeta, bind_ret_l, Hsource, bind_ret_l, Hs, bind_ret_l, Hid, bind_ret_l.
  rewrite !opt_get_meta. reflexivity.
Qed.

(** X8.  Whenever a document is normalised to a record, the record has the
    fields [id], [score], [source], [summary], [full], in this order.  The
    score and the document are handed over unchanged.  The source is never
    missing: it is the metadata's source, else the document's own, else
    ["unknown"].  The id is the metadata's [_id] when there is one, else
    the document's own [_id]; when both are missing the record has no id.
    A document that holds no object with an own [toString] is always
    normalised to a record. *)
Theorem normalized_record_keeps_hit (doc score : jsval) :
  is_document doc = true ->
  (forall rec,
      normalize_hit (doc, score) = ret rec ->
      field_names rec = ["id"; "score"; "source"; "summary"; "full"] /\
      opt_get rec "score" = score /\
      opt_get rec "full" = doc /\
      opt_get rec "source"
      = nc (opt_get (opt_get doc "metadata") "source")
           (nc (opt_get doc "source") (JStr "unknown")) /\
      nullish (opt_get rec "source") = false /\
      (nullish (opt_get (opt_get doc "metadata") "_id") = false ->
       opt_get rec "id" = opt_get (opt_get doc "metadata") "_id") /\
      (nullish (opt_get (opt_get doc "metadata") "_id") = true ->
       nullish (opt_get doc "_id") = false ->
       opt_get rec "id" = opt_get doc "_id") /\
      (nullish (opt_get (opt_get doc "metadata") "_id") = true ->
       nullish (opt_get doc "_id") = true ->
       nullish (opt_get rec "id") = true)) /\
  (plain doc = true -> exists rec, normalize_hit (doc, score) = ret rec).
Proof.
  intro Hdoc.
  destruct (normalize_hit_record doc score Hdoc)
    as [meta [source [Hmeta [Hsource [Hm Hrec]]]]].
  split.
  - intros rec Hrun.
    assert (Hsum : exists summary, compose_summary doc meta source = ret summary).
    { unfold normalize_hit in Hrun.
      rewrite Hmeta, bind_ret_l, Hsource, bind_ret_l in Hrun.
      apply bind_ret_inv in Hrun. destruct Hrun as [summary [Hs _]].
      exists summary. exact Hs. }
    destruct Hsum as [summary Hs].
    rewrite (Hrec summary Hs) in Hrun. apply ret_inj in Hrun. subst rec.
    simpl. unfold nc. repeat split.
    + destruct (nullish (opt_get (opt_get doc "metadata") "source")) eqn:E1;
        [|exact E1].
      destruct (nullish (opt_get doc "source")) eqn:E2; [reflexivity | exact E2].
    + intro H. rewrite H. reflexivity.
    + intros H1 H2. rewrite H1, H2. reflexivity.
    + intros H1 H2. rewrite H1, H2. exact H1.
  - intro Hplain.
    pose proof (resolve_meta_plain _ _ Hmeta Hplain) as Hpm.
    destruct (compose_summary_string doc meta source Hdoc Hplain Hm Hpm) as [s Hs].
    eexists. exact (Hrec _ Hs).
Qed.

(** X8, instance: a chunk whose metadata carries the source and the id. *)
Lemma normalized_record_keeps_hit_witness :
  exists rec,
    normalize_hit (doc_markdown, JNum (NFrac "0.91")) = ret rec /\
    opt_get rec "score" = JNum (NFrac "0.91") /\
    opt_get rec "full" = doc_markdown /\
    opt_get rec "source" = JStr "markdown" /\
    opt_get rec "id" = JStr "doc-7".
Proof.
  destruct (normalized_record_keeps_hit doc_markdown (JNum (NFrac "0.91")) eq_refl)
    as [Hfields Hexists].
  destruct (Hexists eq_refl) as [rec Hrec].
  destruct (Hfields rec Hrec) as [_ [Hscore [Hfull [Hsource [_ [Hid _]]]]]].
  exists rec. repeat split; try assumption. exact (Hid eq_refl).
Defined.

(* ===================================================================== *)
(** ** The normalizer has no effect on the outside *)
(* ===================================================================== *)

Lemma trace_bind {A B} (m : Eff A) (f : A -> Eff B) :
  trace (bind m f)
  = (trace m ++ match result m with
                | Returned a => trace (f a)
                | Thrown _ => []
                end)%list.
Proof.
  destruct m as [t [a|err]]; simpl; [|now rewrite app_nil_r].
  destruct (f a); reflexivity.
Qed.

Lemma trace_try_catch {A} (m : Eff A) (handler : jsval -> Eff A) :
  trace (try_catch m handler)
  = (trace m ++ match result m with
                | Returned _ => []
                | Thrown err => trace (handler err)
                end)%list.
Proof.
  destruct m as [t [a|err]]; simpl; [now rewrite app_nil_r|].
  destruct (handler err); reflexivity.
Qed.

Lemma silent_bind {A B} (m : Eff A) (f : A -> Eff B) :
  trace m = [] -> (forall a, trace (f a) = []) -> trace (bind m f) = [].
Proof.
  intros Hm Hf. rewrite trace_bind, Hm. destruct (result m); [apply Hf | reflexivity].
Qed.

Lemma silent_get (v : jsval) (k : string) : trace (get v k) = [].
Proof. unfold get. destruct (nullish v); reflexivity. Qed.

Lemma silent_get_opt (v : jsval) (k : string) : trace (get_opt v k) = [].
Proof. unfold get_opt. destruct (nullish v); [reflexivity | apply silent_get]. Qed.

Lemma silent_coalesce (a b : Eff jsval) :
  trace a = [] -> trace b = [] -> trace (a ?? b) = [].
Proof.
  intros Ha Hb. unfold coalesce. apply silent_bind; [exact Ha|].
  intro x. destruct (nullish x); [exact Hb | reflexivity].
Qed.

Lemma silent_call_slice (v : jsval) (n : nat) : trace (call_slice v n) = [].
Proof. destruct v; reflexivity. Qed.

Lemma silent_call_slice_opt (v : jsval) (n : nat) : trace (call_slice_opt v n) = [].
Proof.
  unfold call_slice_opt. destruct (nullish v); [reflexivity | apply silent_call_slice].
Qed.

Lemma silent_call_split_lines (v : jsval) : trace (call_split_lines v) = [].
Proof. destruct v; reflexivity. Qed.

Ltac silence :=
  repeat first
    [ reflexivity
    | apply silent_get
    | apply silent_get_opt
    | apply silent_call_slice
    | apply silent_call_slice_opt
    | apply silent_call_split_lines
    | apply silent_coalesce
    | apply silent_bind; [|intro]
    | match goal with
      | |- trace (if ?c then _ else _) = [] => destruct c
      end ].

Lemma silent_ToString (v : jsval) : trace (ToString v) = [].
Proof. unfold ToString. destruct (convertible v); reflexivity. Qed.

Lemma silent_opt_suffix (label : string) (v : jsval) (tail : string) :
  trace (opt_suffix label v tail) = [].
Proof.
  unfold opt_suffix. destruct (truthy v); [|reflexivity].
  apply silent_bind; [apply silent_ToString | reflexivity].
Qed.

Lemma silent_project_summary (l : project_locals) : trace (project_summary l) = [].
Proof.
  unfold project_summary.
  repeat (apply silent_bind;
          [first [apply silent_ToString | apply silent_opt_suffix] | intro]).
  reflexivity.
Qed.

Lemma silent_row_summary (l : row_locals) : trace (row_summary l) = [].
Proof.
  unfold row_summary.
  repeat (apply silent_bind;
          [first [apply silent_ToString | apply silent_opt_suffix] | intro]).
  reflexivity.
Qed.

Lemma silent_resolve_project (doc meta : jsval) : trace (resolve_project doc meta) = [].
Proof. unfold resolve_project. silence. Qed.

Lemma silent_resolve_row (doc meta : jsval) : trace (resolve_row doc meta) = [].
Proof. unfold resolve_row. silence. Qed.

Lemma silent_compose_summary (doc meta source : jsval) :
  trace (compose_summary doc meta source) = [].
Proof.
  unfold compose_summary.
  apply silent_bind; [unfold is_project; silence | intros [|]].
  - apply silent_bind; [apply silent_resolve_project | intro l].
    apply silent_bind; [apply silent_project_summary | intro]. reflexivity.
  - apply silent_bind; [unfold is_row; silence | intros [|]].
    + apply silent_bind; [apply silent_resolve_row | intro l].
      apply silent_bind; [apply silent_row_summary | intro]. reflexivity.
    + destruct (is_str source "markdown");
        [unfold markdown_summary | unfold fallback_summary]; silence.
Qed.

Lemma silent_normalize_hit (r : hit) : trace (normalize_hit r) = [].
Proof.
  destruct r as [doc score].
  unfold normalize_hit, resolve_meta, resolve_source, resolve_id.
  apply silent_bind; [silence | intro meta].
  apply silent_bind; [silence | intro source].
  apply silent_bind; [apply silent_compose_summary | intro summary].
  silence.
Qed.

Lemma silent_normalize_all (rawResults : list hit) :
  trace (normalize_all rawResults) = [].
Proof.
  induction rawResults as [|r rest IH]; [reflexivity|].
  simpl. apply silent_bind; [apply silent_normalize_hit|].
  intro x. apply silent_bind; [exact IH|]. reflexivity.
Qed.

(** Normalising a list of documents that hold no object with an own
    [toString]: one record per hit, in order. *)
Lemma normalize_all_documents (rawResults : list hit) :
  Forall (fun r => is_document (fst r) = true /\ plain (fst r) = true) rawResults ->
  exists normalized,
    normalize_all rawResults = ret normalized /\
    length normalized = length rawResults /\
    map (fun rec => opt_get rec "score") normalized = map snd rawResults /\
    map (fun rec => opt_get rec "full") normalized = map fst rawResults /\
    Forall (fun rec => exists s, opt_get rec "summary" = JStr s) normalized.
Proof.
  intro Hdocs. induction Hdocs as [|[doc score] rest [Hdoc Hplain] Hrest IH].
  - exists []. repeat split. constructor.
  - destruct IH as [normalized [Hall [Hlen [Hscores [Hfulls Hsums]]]]].
    simpl in Hdoc, Hplain.
    destruct (normalize_hit_record doc score Hdoc)
      as [meta [source [Hmeta [Hsource [Hm Hrec]]]]].
    pose proof (resolve_meta_plain _ _ Hmeta Hplain) as Hpm.
    destruct (compose_summary_string doc meta source Hdoc Hplain Hm Hpm) as [s Hs].
    eexists. split.
    { cbn [normalize_all]. rewrite (Hrec _ Hs), bind_ret_l, Hall, bind_ret_l.
      reflexivity. }
    simpl. rewrite Hlen, Hscores, Hfulls. repeat split.
    constructor; [exists s; reflexivity | exact Hsums].
Qed.

(* ===================================================================== *)
(** ** The vector_search tool: what it does on the way *)
(* ===================================================================== *)

(** The trace of the tool, step by step. *)
Lemma vectorSearchTool_trace (env : environment) (query : string) (n : option Z) :
  trace (vectorSearchTool env query n)
  = EvToolLog query (n_or_default n) :: EvCountDocuments ::
    match countDocuments env with
    | Thrown err => [EvToolError err]
    | Returned total =>
        if is_num total 0 then []
        else
          EvNewEmbeddings ::
          match newEmbeddings env with
          | Thrown err => [EvToolError err]
          | Returned _ =>
              EvNewVectorStore ::
              match newVectorStore env with
              | Thrown err => [EvToolError err]
              | Returned _ =>
                  (trace (retryWithBackoff
                            (similaritySearchWithScore env query (n_or_default n)) 3)
                   ++ match result (retryWithBackoff
                                     (similaritySearchWithScore env query (n_or_default n)) 3) with
                      | Thrown err => [EvToolError err]
                      | Returned rawResults =>
                          match result (normalize_all rawResults) with
                          | Thrown err => [EvToolError err]
                          | Returned _ => []
                          end
                      end)%list
              end
          end
    end.
Proof.
  unfold vectorSearchTool, vectorSearchTool_body, emit, perform.
  remember (retryWithBackoff (similaritySearchWithScore env query (n_or_default n)) 3)
    as search.
  destruct (countDocuments env) as [total|err]; [|reflexivity].
  simpl. destruct (is_num total 0); [reflexivity|].
  destruct (newEmbeddings env) as [[]|err]; [|reflexivity].
  destruct (newVectorStore env) as [[]|err]; [|reflexivity].
  destruct search as [t [rawResults|err]]; [|reflexivity].
  simpl. pose proof (silent_normalize_all rawResults) as Hsilent.
  destruct (normalize_all rawResults) as [t' [normalized|err]];
    simpl in Hsilent; subst t'; simpl; rewrite ?app_nil_r; reflexivity.
Qed.

(** With the budget of 3: at most two retries before the last call. *)
Lemma retry_three_trace {T} (fn : @operation T) :
  exists k, (k < 3)%nat /\
    trace (retryWithBackoff fn 3) = (retries_trace 1 k ++ [EvInvoke])%list.
Proof.
  destruct (retry_run_shape fn 3 ltac:(lia)) as [k [Hk [Hrun _]]].
  exists k. split; [lia|]. rewrite Hrun. reflexivity.
Qed.

(** X9.  When the collection is not empty, the clients are built and the
    retried search answers a list of documents that hold no object with an
    own [toString], the tool returns the success envelope with one record
    per hit, in the order of the search:
    the scores and the documents are those of the hits, every summary is a
    string, and [count] is the number of hits. *)
Theorem tool_success_keeps_hits (env : environment) (query : string) (n : option Z)
        (total : jsval) (rawResults : list hit) :
  countDocuments env = Returned total ->
  is_num total 0 = false ->
  newEmbeddings env = Returned tt ->
  newVectorStore env = Returned tt ->
  result (retryWithBackoff (similaritySearchWithScore env query (n_or_default n)) 3)
  = Returned rawResults ->
  Forall (fun r => is_document (fst r) = true /\ plain (fst r) = true) rawResults ->
  exists normalized,
    result (vectorSearchTool env query n)
    = Returned (JSON_stringify (success_envelope normalized query)) /\
    length normalized = length rawResults /\
    map (fun rec => opt_get rec "score") normalized = map snd rawResults /\
    map (fun rec => opt_get rec "full") normalized = map fst rawResults /\
    Forall (fun rec => exists s, opt_get rec "summary" = JStr s) normalized /\
    opt_get (success_envelope normalized query) "count"
    = num (Z.of_nat (length rawResults)) /\
    opt_get (success_envelope normalized query) "searchType" = JStr "vector" /\
    opt_get (success_envelope normalized query) "query" = JStr query.
Proof.
  intros Hcount Hnonzero Hemb Hstore Hsearch Hdocs.
  destruct (normalize_all_documents rawResults Hdocs)
    as [normalized [Hall [Hlen [Hscores [Hfulls Hsums]]]]].
  exists normalized.
  rewrite vectorSearchTool_result, vectorSearchTool_body_result.
  rewrite Hcount, Hnonzero, Hemb, Hstore, Hsearch, Hall. simpl.
  rewrite Hlen. repeat split; assumption.
Qed.

(** X9, instance: the collection answering two hits. *)
Lemma tool_success_keeps_hits_witness :
  exists normalized,
    result (vectorSearchTool env_two_hits "mangrove" (Some 2))
    = Returned (JSON_stringify (success_envelope normalized "mangrove")) /\
    length normalized = 2%nat /\
    map (fun rec => opt_get rec "score") normalized
    = [JNum (NFrac "0.93"); JNum (NFrac "0.87")] /\
    opt_get (success_envelope normalized "mangrove") "count" = num 2.
Proof.
  destruct (tool_success_keeps_hits env_two_hits "mangrove" (Some 2) (num 42)
              [(doc_mangrove, JNum (NFrac "0.93")); (doc_kalimantan, JNum (NFrac "0.87"))]
              eq_refl eq_refl eq_refl eq_refl eq_refl)
    as [normalized [Hres [Hlen [Hscores [_ [_ [Hcount _]]]]]]].
  - repeat constructor.
  - exists normalized. repeat split; assumption.
Defined.

(** A hit one of whose fields cannot be converted spoils the whole answer:
    the tool returns the search_error envelope with the TypeError's
    message. *)
Example unconvertible_field_is_a_search_error :
  result (vectorSearchTool env_unconvertible_hit "mangrove" None)
  = Returned (JSON_stringify
                (JObj [("error", JStr "search_error");
                       ("details", JStr "Cannot convert object to primitive value");
                       ("query", JStr "mangrove")])).
Proof. reflexivity. Qed.

(** X10.  One call of the tool searches at most 3 times and sleeps at most
    twice, 2000 ms and then 4000 ms: never more than 6000 ms in all. *)
Theorem tool_search_budget (env : environment) (query : string) (n : option Z) :
  (invocations (trace (vectorSearchTool env query n)) <= 3)%nat /\
  (length (sleeps (trace (vectorSearchTool env query n))) <= 2)%nat /\
  (exists k, sleeps (trace (vectorSearchTool env query n)) = firstn k [2000; 4000]) /\
  total_sleep (trace (vectorSearchTool env query n)) <= 6000.
Proof.
  rewrite vectorSearchTool_trace.
  destruct (countDocuments env) as [total|err].
  2:{ cbv. repeat split; try lia; try (exists 0%nat; reflexivity); discriminate. }
  destruct (is_num total 0).
  { cbv. repeat split; try lia; try (exists 0%nat; reflexivity); discriminate. }
  destruct (newEmbeddings env) as [[]|err].
  2:{ cbv. repeat split; try lia; try (exists 0%nat; reflexivity); discriminate. }
  destruct (newVectorStore env) as [[]|err].
  2:{ cbv. repeat split; try lia; try (exists 0%nat; reflexivity); discriminate. }
  destruct (retry_three_trace (similaritySearchWithScore env query (n_or_default n)))
    as [k [Hk Htrace]].
  rewrite Htrace.
  assert (Htail : forall tail : list event,
             (tail = [] \/ exists err, tail = [EvToolError err]) ->
             let t := (EvToolLog query (n_or_default n) :: EvCountDocuments
                         :: EvNewEmbeddings :: EvNewVectorStore
                         :: (retries_trace 1 k ++ [EvInvoke]) ++ tail)%list in
             (invocations t <= 3)%nat /\ (length (sleeps t) <= 2)%nat /\
             (exists j, sleeps t = firstn j [2000; 4000]) /\ total_sleep t <= 6000).
  { intros tail Htail.
    destruct k as [|[|[|k]]]; [| | |lia];
      destruct Htail as [Htail|[err Htail]]; subst tail; cbv;
        repeat split; try lia; try discriminate;
        first [exists 0%nat; reflexivity | exists 1%nat; reflexivity
              | exists 2%nat; reflexivity]. }
  apply Htail.
  destruct (result (retryWithBackoff _ 3)) as [rawResults|err];
    [|right; eexists; reflexivity].
  destruct (result (normalize_all rawResults)) as [normalized|err];
    [left; reflexivity | right; eexists; reflexivity].
Qed.

Lemma logged_errors_app (t1 t2 : list event) :
  logged_errors (t1 ++ t2) = (logged_errors t1 ++ logged_errors t2)%list.
Proof. unfold logged_errors. apply flat_map_app. Qed.

Lemma logged_errors_retries (a k : nat) : logged_errors (retries_trace a k) = [].
Proof.
  revert a. induction k as [|k IH]; intro a; [reflexivity|].
  simpl. unfold logged_errors in *. simpl. apply IH.
Qed.

(** X11.  The tool writes to [console.error] exactly when it swallows an
    error: once, with the very error whose message the search_error envelope
    carries; a success envelope or the empty_db envelope comes with no error
    line at all. *)
Theorem tool_logs_what_it_swallows (env : environment) (query : string) (n : option Z) :
  exists v,
    result (vectorSearchTool env query n) = Returned (JSON_stringify v) /\
    ((logged_errors (trace (vectorSearchTool env query n)) = [] /\
      has_field v "details" = false /\
      (v = empty_db_envelope \/ exists normalized, v = success_envelope normalized query)) \/
     (exists err,
         logged_errors (trace (vectorSearchTool env query n)) = [err] /\
         v = search_error_envelope err query)).
Proof.
  rewrite vectorSearchTool_result, vectorSearchTool_body_result, vectorSearchTool_trace.
  destruct (countDocuments env) as [total|err];
    [|eexists; split; [reflexivity|]; right; eexists; split; reflexivity].
  destruct (is_num total 0).
  { eexists. split; [reflexivity|]. left. repeat split. left. reflexivity. }
  destruct (newEmbeddings env) as [[]|err];
    [|eexists; split; [reflexivity|]; right; eexists; split; reflexivity].
  destruct (newVectorStore env) as [[]|err];
    [|eexists; split; [reflexivity|]; right; eexists; split; reflexivity].
  destruct (retry_three_trace (similaritySearchWithScore env query (n_or_default n)))
    as [k [_ Htrace]].
  rewrite Htrace.
  assert (Hlog : forall tail : list event,
             logged_errors (EvToolLog query (n_or_default n) :: EvCountDocuments
                              :: EvNewEmbeddings :: EvNewVectorStore
                              :: (retries_trace 1 k ++ [EvInvoke]) ++ tail)
             = logged_errors tail).
  { intro tail.
    change (logged_errors (?a :: ?b :: ?c :: ?d :: ?rest)) with (logged_errors rest).
    rewrite !logged_errors_app, logged_errors_retries. reflexivity. }
  rewrite Hlog.
  destruct (result (retryWithBackoff _ 3)) as [rawResults|err];
    [|eexists; split; [reflexivity|]; right; eexists; split; reflexivity].
  destruct (result (normalize_all rawResults)) as [normalized|err];
    [|eexists; split; [reflexivity|]; right; eexists; split; reflexivity].
  eexists. split; [reflexivity|]. left. repeat split.
  right. exists normalized. reflexivity.
Qed.

(** X12.  The tool counts before anything else: every trace starts with the
    log line and the count; the embeddings client is only built after a
    count that is not 0; and a search is only made after that and after
    both clients were built. *)
Theorem tool_counts_first (env : environment) (query : string) (n : option Z) :
  firstn 2 (trace (vectorSearchTool env query n))
  = [EvToolLog query (n_or_default n); EvCountDocuments] /\
  (In EvNewEmbeddings (trace (vectorSearchTool env query n)) ->
   exists total, countDocuments env = Returned total /\ is_num total 0 = false) /\
  ((0 < invocations (trace (vectorSearchTool env query n)))%nat ->
   exists total,
     countDocuments env = Returned total /\ is_num total 0 = false /\
     newEmbeddings env = Returned tt /\ newVectorStore env = Returned tt).
Proof.
  rewrite vectorSearchTool_trace. split; [reflexivity|].
  destruct (countDocuments env) as [total|err].
  2:{ split.
      - intros [H|[H|[H|[]]]]; discriminate H.
      - cbv. intro H. inversion H. }
  destruct (is_num total 0) eqn:Hzero.
  { split.
    - intros [H|[H|[]]]; discriminate H.
    - cbv. intro H. inversion H. }
  split; [intros _; exists total; split; [reflexivity | exact Hzero]|].
  destruct (newEmbeddings env) as [[]|err].
  2:{ cbv. intro H. inversion H. }
  destruct (newVectorStore env) as [[]|err].
  2:{ cbv. intro H. inversion H. }
  intros _. exists total. repeat split. exact Hzero.
Qed.

(* ===================================================================== *)
(** ** The agent graph: routing and the model node *)
(* ===================================================================== *)

(** X13.  [shouldContinue] answers ["tools"] or ["__end__"], looking at the
    last message only: with no message it ends the turn; an assistant
    message is routed to the tools exactly when it carries at least one
    tool call; a message without tool calls ends the turn. *)
Theorem shouldContinue_follows_last_message :
  (forall st, shouldContinue st = "tools" \/ shouldContinue st = "__end__") /\
  shouldContinue None = "__end__" /\
  shouldContinue (Some []) = "__end__" /\
  (forall earlier m,
      shouldContinue (Some (earlier ++ [m])%list) = shouldContinue (Some [m])) /\
  (forall content calls,
      shouldContinue (Some [ai_message content calls])
      = match calls with [] => "__end__" | _ :: _ => "tools" end) /\
  (forall m, truthy (opt_get m "tool_calls") = false ->
             shouldContinue (Some [m]) = "__end__").
Proof.
  split; [|split; [|split; [|split; [|split]]]].
  - intro st. unfold shouldContinue.
    destruct (negb _); [right; reflexivity|].
    destruct (_ && _); [left | right]; reflexivity.
  - reflexivity.
  - reflexivity.
  - intros earlier m. unfold shouldContinue. rewrite last_last. reflexivity.
  - intros content [|c calls]; reflexivity.
  - intros m H. unfold shouldContinue. simpl. rewrite H.
    destruct (negb (truthy m)); reflexivity.
Qed.

(** X14.  [callModel] calls the model at most 3 times, retrying only after
    rate-limit errors.  When the last call answers, the node returns the
    update [{ messages: [answer] }], and once the reducer has appended it to
    any earlier messages the route depends on that answer alone; when the
    last call fails, its error is thrown unchanged. *)
Theorem callModel_answer_decides_route (model : @operation jsval) :
  exists k, (k < 3)%nat /\
    invocations (trace (callModel model)) = S k /\
    (forall i, (i < k)%nat -> exists err, model i = Thrown err /\ isRate err = true) /\
    match model k with
    | Returned answer =>
        result (callModel model) = Returned (JObj [("messages", JArr [answer])]) /\
        forall earlier,
          shouldContinue
            (Some (messages_reducer earlier
                     (opt_get (JObj [("messages", JArr [answer])]) "messages")))
          = shouldContinue (Some [answer])
    | Thrown err => result (callModel model) = Thrown err
    end.
Proof.
  unfold callModel.
  destruct (retry_run_shape (model_thunk model) 3 ltac:(lia)) as [k [Hk [Hrun [Hfail _]]]].
  exists k. split; [lia|]. rewrite Hrun. simpl. split; [|split].
  - rewrite invocations_app, invocations_retries.
    change (invocations [EvInvoke]) with 1%nat. lia.
  - intros i Hi. destruct (Hfail i Hi) as [err [Hthunk Hrate]].
    exists err. split; [|exact Hrate].
    unfold model_thunk in Hthunk. destruct (model i); [discriminate Hthunk | exact Hthunk].
  - unfold model_thunk. destruct (model k) as [answer|err]; [|reflexivity].
    split; [reflexivity|].
    intro earlier. unfold shouldContinue. simpl. rewrite last_last. reflexivity.
Qed.

(* ===================================================================== *)
(** ** callAgent *)
(* ===================================================================== *)

(** The [catch] block always throws a new error, chosen by the status. *)
Lemma callAgent_catch_run (err : jsval) :
  exists msg,
    callAgent_catch err = ([TurnLogError err], Thrown (new_Error msg)) /\
    msg <> "" /\
    (is_num (opt_get err "status") 429 = true ->
     msg = "Rate limited; try again later.") /\
    (is_num (opt_get err "status") 429 = false ->
     is_num (opt_get err "status") 401 = true ->
     msg = "Authentication error; check API key.") /\
    (is_num (opt_get err "status") 429 = false ->
     is_num (opt_get err "status") 401 = false ->
     msg = "Agent error: "
             ++ to_string (nc (opt_get err "message") (JStr (to_string err)))).
Proof.
  unfold callAgent_catch.
  destruct (is_num (opt_get err "status") 429) eqn:E429;
    [|destruct (is_num (opt_get err "status") 401) eqn:E401];
    eexists; (split; [reflexivity|]); (split; [discriminate|]);
      repeat split; intros; try discriminate; reflexivity.
Qed.

(** Every run of [callAgent]: either the graph answered and the response is
    returned, or an error went through the [catch] block. *)
Lemma callAgent_run (env : agent_environment) (query thread_id : jsval) :
  (exists msgs,
      truthy (apiKey env) = true /\ setup env = Returned tt /\
      invoke env = Returned msgs /\
      callAgent env query thread_id
      = ([TurnSetup; TurnInvoke query thread_id;
          TurnLogResponse (response_of (List.last msgs JUndefined))],
         Returned (response_of (List.last msgs JUndefined)))) \/
  (exists before err,
      callAgent env query thread_id
      = ((before ++ run_trace (callAgent_catch err))%list, run_result (callAgent_catch err)) /\
      responses before = [] /\
      ((truthy (apiKey env) = false /\ before = [] /\
        err = new_Error "GOOGLE_API_KEY environment variable is required") \/
       (truthy (apiKey env) = true /\ setup env = Thrown err /\ before = [TurnSetup]) \/
       (truthy (apiKey env) = true /\ setup env = Returned tt /\
        invoke env = Thrown err /\
        before = [TurnSetup; TurnInvoke query thread_id]))).
Proof.
  unfold callAgent, run_perform.
  destruct (truthy (apiKey env)) eqn:Hkey; simpl.
  - destruct (setup env) as [[]|err] eqn:Hsetup; simpl.
    + destruct (invoke env) as [msgs|err] eqn:Hinvoke; simpl.
      * left. exists msgs. repeat split.
      * right. exists [TurnSetup; TurnInvoke query thread_id], err.
        destruct (callAgent_catch err) as [t r] eqn:Hcatch. simpl.
        split; [reflexivity|]. split; [reflexivity|].
        right; right. repeat split.
    + right. exists [TurnSetup], err.
      destruct (callAgent_catch err) as [t r] eqn:Hcatch. simpl.
      split; [reflexivity|]. split; [reflexivity|].
      right; left. repeat split.
  - right. exists [], (new_Error "GOOGLE_API_KEY environment variable is required").
    split; [reflexivity|]. split; [reflexivity|]. left. repeat split.
Qed.

Lemma response_of_not_nullish (lastMsg : jsval) :
  nullish (response_of lastMsg) = false /\
  (response_of lastMsg = JStr "" \/ truthy (response_of lastMsg) = true).
Proof.
  unfold response_of.
  destruct (truthy (if truthy lastMsg then opt_get lastMsg "content" else lastMsg)) eqn:E.
  - split; [|right; exact E].
    destruct (if truthy lastMsg then opt_get lastMsg "content" else lastMsg);
      try discriminate E; reflexivity.
  - split; [reflexivity | left; reflexivity].
Qed.

(** X15.  Whatever goes wrong inside, [callAgent] throws an error of its
    own making, never the original one: a new [Error] without status, whose
    message is not empty and is either the rate-limit message, the
    authentication message, or ["Agent error: "] followed by a detail. *)
Theorem callAgent_throws_only_its_own_errors (env : agent_environment)
        (query thread_id e : jsval) :
  run_result (callAgent env query thread_id) = Thrown e ->
  exists msg,
    e = new_Error msg /\
    msg <> "" /\
    opt_get e "status" = JUndefined /\
    (msg = "Rate limited; try again later." \/
     msg = "Authentication error; check API key." \/
     String.prefix "Agent error: " msg = true).
Proof.
  intro Hthrown.
  destruct (callAgent_run env query thread_id)
    as [[msgs [_ [_ [_ Hrun]]]] | [before [err [Hrun _]]]];
    rewrite Hrun in Hthrown; simpl in Hthrown; [discriminate Hthrown|].
  destruct (callAgent_catch_run err) as [msg [Hcatch [Hne [H429 [H401 Hother]]]]].
  rewrite Hcatch in Hthrown. simpl in Hthrown. injection Hthrown as He. subst e.
  exists msg. split; [reflexivity|]. split; [exact Hne|]. split; [reflexivity|].
  destruct (is_num (opt_get err "status") 429) eqn:E429.
  - left. now apply H429.
  - destruct (is_num (opt_get err "status") 401) eqn:E401.
    + right; left. now apply H401.
    + right; right. rewrite (Hother eq_refl eq_refl). simpl.
      destruct (to_string _); reflexivity.
Qed.

(** X15, instance: the graph fails with a 429 error. *)
Lemma callAgent_throws_only_its_own_errors_witness :
  exists msg,
    new_Error "Rate limited; try again later." = new_Error msg /\
    msg <> "" /\
    opt_get (new_Error "Rate limited; try again later.") "status" = JUndefined /\
    (msg = "Rate limited; try again later." \/
     msg = "Authentication error; check API key." \/
     String.prefix "Agent error: " msg = true).
Proof.
  apply (callAgent_throws_only_its_own_errors agent_env_rate_limited
           (JStr "Hi") (JStr "t-1")).
  reflexivity.
Defined.

(** X16.  Without an API key ([undefined] or empty), [callAgent] fails
    before touching the database or the graph, and the missing key is
    reported as an agent error: the message thrown inside the [try] comes
    back prefixed by ["Agent error: "]. *)
Theorem callAgent_without_api_key (env : agent_environment) (query thread_id : jsval) :
  truthy (apiKey env) = false ->
  callAgent env query thread_id
  = ([TurnLogError (new_Error "GOOGLE_API_KEY environment variable is required")],
     Thrown (new_Error "Agent error: GOOGLE_API_KEY environment variable is required")) /\
  reached_graph (run_trace (callAgent env query thread_id)) = false.
Proof.
  intro Hkey. unfold callAgent. rewrite Hkey. simpl. split; reflexivity.
Qed.

(** X16, instance: the variable is not set. *)
Lemma callAgent_without_api_key_witness :
  callAgent agent_env_without_key (JStr "Hi") (JStr "t-1")
  = ([TurnLogError (new_Error "GOOGLE_API_KEY environment variable is required")],
     Thrown (new_Error "Agent error: GOOGLE_API_KEY environment variable is required")) /\
  reached_graph (run_trace (callAgent agent_env_without_key (JStr "Hi") (JStr "t-1"))) = false.
Proof.
  apply (callAgent_without_api_key agent_env_without_key (JStr "Hi") (JStr "t-1")).
  reflexivity.
Defined.

(** X17.  When [callAgent] returns, the graph was invoked exactly once and
    the response is read off the last message of the final state: its
    content when that is truthy, the empty string otherwise (no message, no
    content, empty content).  The response is never [undefined] or [null];
    for a last message whose content is a string it is that string. *)
Theorem callAgent_response (env : agent_environment) (query thread_id r : jsval) :
  run_result (callAgent env query thread_id) = Returned r ->
  exists msgs,
    invoke env = Returned msgs /\
    run_trace (callAgent env query thread_id)
    = [TurnSetup; TurnInvoke query thread_id; TurnLogResponse r] /\
    r = response_of (List.last msgs JUndefined) /\
    nullish r = false /\
    (r = JStr "" \/ truthy r = true) /\
    (msgs = [] -> r = JStr "") /\
    (forall earlier content calls,
        msgs = (earlier ++ [ai_message content calls])%list -> r = JStr content).
Proof.
  intro Hret.
  destruct (callAgent_run env query thread_id)
    as [[msgs [_ [_ [Hinvoke Hrun]]]] | [before [err [Hrun _]]]];
    rewrite Hrun in Hret |- *; simpl in Hret.
  - injection Hret as Hr. subst r. exists msgs.
    split; [exact Hinvoke|]. split; [reflexivity|]. split; [reflexivity|].
    destruct (response_of_not_nullish (List.last msgs JUndefined)) as [Hnn Hor].
    split; [exact Hnn|]. split; [exact Hor|]. split.
    + intro Hempty. subst msgs. reflexivity.
    + intros earlier content calls Hmsgs. subst msgs. rewrite last_last.
      unfold response_of, ai_message. simpl.
      destruct content; reflexivity.
  - destruct (callAgent_catch_run err) as [msg [Hcatch _]].
    rewrite Hcatch in Hret. discriminate Hret.
Qed.

(** X17, instance: the model greets. *)
Lemma callAgent_response_witness :
  exists msgs,
    invoke agent_env_answers = Returned msgs /\
    run_trace (callAgent agent_env_answers (JStr "Hi") (JStr "t-1"))
    = [TurnSetup; TurnInvoke (JStr "Hi") (JStr "t-1");
       TurnLogResponse (JStr "Hello, I am Swappy.")] /\
    JStr "Hello, I am Swappy." = response_of (List.last msgs JUndefined) /\
    nullish (JStr "Hello, I am Swappy.") = false /\
    (JStr "Hello, I am Swappy." = JStr "" \/ truthy (JStr "Hello, I am Swappy.") = true) /\
    (msgs = [] -> JStr "Hello, I am Swappy." = JStr "") /\
    (forall earlier content calls,
        msgs = (earlier ++ [ai_message content calls])%list ->
        JStr "Hello, I am Swappy." = JStr content).
Proof.
  apply (callAgent_response agent_env_answers (JStr "Hi") (JStr "t-1")
           (JStr "Hello, I am Swappy.")).
  reflexivity.
Defined.

(** A model that is rate limited on every call exhausts the budget of
    [callModel]: three calls, and the error of the third one is thrown. *)
Lemma callModel_exhausted (model : @operation jsval) :
  (forall i, exists e, model i = Thrown e /\ isRate e = true) ->
  exists err,
    model 2%nat = Thrown err /\
    result (callModel model) = Thrown err /\
    invocations (trace (callModel model)) = 3%nat.
Proof.
  intro Hall. destruct (Hall 2%nat) as [err [H2 Hrate]].
  assert (Hthunk : forall i, exists e, model_thunk model i = Thrown e /\ isRate e = true).
  { intro i. destruct (Hall i) as [e [Hi He]]. exists e.
    unfold model_thunk. rewrite Hi. split; [reflexivity | exact He]. }
  exists err. split; [exact H2|].
  unfold callModel, retryWithBackoff, attempts_upto.
  rewrite (retry_loop_run (model_thunk model) 3 2 1 0 (Z.to_nat 3)).
  - simpl. unfold model_thunk. rewrite H2. split; reflexivity.
  - intros i _. apply Hthunk.
  - simpl. lia.
  - simpl. lia.
  - simpl. unfold model_thunk. rewrite H2. simpl. rewrite Hrate. reflexivity.
Qed.

(** X18.  A model that answers every call with an error of status 429 is
    called three times by [callModel], which then throws the last of these
    errors; when the graph hands that error on, [callAgent] reports
    ["Rate limited; try again later."]. *)
Theorem exhausted_rate_limit_reaches_caller (model : @operation jsval) :
  (forall i, exists e, model i = Thrown e /\ is_num (opt_get e "status") 429 = true) ->
  exists err,
    result (callModel model) = Thrown err /\
    invocations (trace (callModel model)) = 3%nat /\
    forall env query thread_id,
      truthy (apiKey env) = true ->
      setup env = Returned tt ->
      invoke env = Thrown err ->
      run_result (callAgent env query thread_id)
      = Thrown (new_Error "Rate limited; try again later.").
Proof.
  intro Hall.
  destruct (callModel_exhausted model) as [err [H2 [Hres Hcalls]]].
  { intro i. destruct (Hall i) as [e [Hi He]]. exists e. split; [exact Hi|].
    unfold isRate. rewrite He. reflexivity. }
  exists err. split; [exact Hres|]. split; [exact Hcalls|].
  intros env query thread_id Hkey Hsetup Hinvoke.
  destruct (Hall 2%nat) as [e [He Hstatus]]. rewrite H2 in He. injection He as He. subst e.
  unfold callAgent, run_perform. rewrite Hkey, Hsetup, Hinvoke. simpl.
  unfold callAgent_catch. simpl. rewrite Hstatus. reflexivity.
Qed.

(** X18, instance: the model that always throws the same 429 error. *)
Lemma exhausted_rate_limit_reaches_caller_witness :
  exists err,
    result (callModel always_rate_limited) = Thrown err /\
    invocations (trace (callModel always_rate_limited)) = 3%nat /\
    forall env query thread_id,
      truthy (apiKey env) = true ->
      setup env = Returned tt ->
      invoke env = Thrown err ->
      run_result (callAgent env query thread_id)
      = Thrown (new_Error "Rate limited; try again later.").
Proof.
  apply (exhausted_rate_limit_reaches_caller always_rate_limited).
  intro i. exists rate_limit_error. split; reflexivity.
Defined.

(** X19.  A rate limit signalled by the error code only ([code] 429, no
    status 429 or 401) is retried like any rate limit, three calls in all,
    but [callAgent] looks at the status alone: it reports the error as
    ["Agent error: "] followed by the message, not as a rate limit. *)
Theorem rate_limit_by_code_is_an_agent_error (model : @operation jsval) :
  (forall i, exists e, model i = Thrown e /\
                       is_num (opt_get e "code") 429 = true /\
                       is_num (opt_get e "status") 429 = false /\
                       is_num (opt_get e "status") 401 = false) ->
  exists err,
    result (callModel model) = Thrown err /\
    invocations (trace (callModel model)) = 3%nat /\
    forall env query thread_id,
      truthy (apiKey env) = true ->
      setup env = Returned tt ->
      invoke env = Thrown err ->
      run_result (callAgent env query thread_id)
      = Thrown (new_Error ("Agent error: "
                             ++ to_string (nc (opt_get err "message")
                                              (JStr (to_string err))))).
Proof.
  intro Hall.
  destruct (callModel_exhausted model) as [err [H2 [Hres Hcalls]]].
  { intro i. destruct (Hall i) as [e [Hi [Hcode _]]]. exists e. split; [exact Hi|].
    unfold isRate. rewrite Hcode. apply orb_true_r. }
  exists err. split; [exact Hres|]. split; [exact Hcalls|].
  intros env query thread_id Hkey Hsetup Hinvoke.
  destruct (Hall 2%nat) as [e [He [_ [H429 H401]]]].
  rewrite H2 in He. injection He as He. subst e.
  unfold callAgent, run_perform. rewrite Hkey, Hsetup, Hinvoke. simpl.
  unfold callAgent_catch. simpl. rewrite H429, H401. reflexivity.
Qed.

(** X19, instance: a quota error carrying [code: 429]. *)
Lemma rate_limit_by_code_is_an_agent_error_witness :
  exists err,
    result (callModel (fun _ => Thrown rate_limit_by_code)) = Thrown err /\
    invocations (trace (callModel (fun _ => Thrown rate_limit_by_code))) = 3%nat /\
    forall env query thread_id,
      truthy (apiKey env) = true ->
      setup env = Returned tt ->
      invoke env = Thrown err ->
      run_result (callAgent env query thread_id)
      = Thrown (new_Error ("Agent error: "
                             ++ to_string (nc (opt_get err "message")
                                              (JStr (to_string err))))).
Proof.
  apply (rate_limit_by_code_is_an_agent_error (fun _ => Thrown rate_limit_by_code)).
  intro i. exists rate_limit_by_code. repeat split.
Defined.

(* ===================================================================== *)
(** ** The chat routes *)
(* ===================================================================== *)

Lemma run_bind_ret_l {A B} (a : A) (f : A -> Run B) : run_bind (run_ret a) f = f a.
Proof. unfold run_bind, run_ret. destruct (f a); reflexivity. Qed.

Lemma responses_app (t1 t2 : list turn_event) :
  responses (t1 ++ t2) = (responses t1 ++ responses t2)%list.
Proof. unfold responses. apply flat_map_app. Qed.

(** What [callAgent] hands to a route: a response, or an error of its own
    with a message; it sends no response itself. *)
Lemma callAgent_outcome (env : agent_environment) (query thread_id : jsval) :
  exists t,
    responses t = [] /\
    ((exists r, callAgent env query thread_id = (t, Returned r)) \/
     (exists msg, msg <> "" /\
                  callAgent env query thread_id = (t, Thrown (new_Error msg)))).
Proof.
  destruct (callAgent_run env query thread_id)
    as [[msgs [_ [_ [_ Hrun]]]] | [before [err [Hrun [Hbefore _]]]]].
  - eexists. split; [|left; eexists; exact Hrun]. reflexivity.
  - destruct (callAgent_catch_run err) as [msg [Hcatch [Hne _]]].
    rewrite Hcatch in Hrun. simpl in Hrun.
    eexists. split; [|right; exists msg; split; [exact Hne | exact Hrun]].
    rewrite responses_app, Hbefore. reflexivity.
Qed.

(** X20.  [POST /chat], for a request with a body: the route never throws
    and answers exactly once.  When [callAgent] returns it answers 200 with
    the thread id (the clock in decimal) and the response; when [callAgent]
    fails it answers 500 with the message of that error, and never with the
    fallback text, the message being non-empty. *)
Theorem chat_route_answers_once (env : agent_environment) (now : Z) (body : jsval) :
  nullish body = false ->
  run_result (chat_route env now body) = Returned tt /\
  match run_result (callAgent env (opt_get body "message") (JStr (string_of_Z now))) with
  | Returned response =>
      responses (run_trace (chat_route env now body))
      = [(200, JObj [("threadId", JStr (string_of_Z now)); ("response", response)])]
  | Thrown e =>
      exists msg,
        e = new_Error msg /\ msg <> "" /\
        responses (run_trace (chat_route env now body))
        = [(500, JObj [("error", JStr msg)])]
  end.
Proof.
  intro Hbody. unfold chat_route, run_get. rewrite Hbody, run_bind_ret_l.
  destruct (callAgent_outcome env (opt_get body "message") (JStr (string_of_Z now)))
    as [t [Hnone [[r Hrun] | [msg [Hne Hrun]]]]]; rewrite Hrun.
  - simpl. split; [reflexivity|]. rewrite responses_app, Hnone. reflexivity.
  - destruct msg as [|c msg]; [congruence|]. simpl. split; [reflexivity|].
    eexists. split; [reflexivity|]. split; [exact Hne|].
    rewrite responses_app, Hnone. reflexivity.
Qed.

(** X20, instance: rate limited at 1731089501234 ms. *)
Lemma chat_route_answers_once_witness :
  run_result (chat_route agent_env_rate_limited 1731089501234
                (JObj [("message", JStr "Hi")])) = Returned tt /\
  responses (run_trace (chat_route agent_env_rate_limited 1731089501234
                          (JObj [("message", JStr "Hi")])))
  = [(500, JObj [("error", JStr "Rate limited; try again later.")])].
Proof.
  destruct (chat_route_answers_once agent_env_rate_limited 1731089501234
              (JObj [("message", JStr "Hi")]) eq_refl) as [Hres Hresp].
  split; [exact Hres|].
  simpl in Hresp. destruct Hresp as [msg [Hmsg [_ Hresp]]].
  injection Hmsg as Hmsg. subst msg. exact Hresp.
Defined.

(** X21.  [POST /chat/:threadId], for a request with a body: the route
    never throws and answers exactly once.  When [callAgent] returns it
    answers 200 with the response alone; when [callAgent] fails it answers
    500 with ["Internal Server Error"], whatever the error was. *)
Theorem chat_thread_route_hides_the_error (env : agent_environment)
        (threadId body : jsval) :
  nullish body = false ->
  run_result (chat_thread_route env threadId body) = Returned tt /\
  match run_result (callAgent env (opt_get body "message") threadId) with
  | Returned response =>
      responses (run_trace (chat_thread_route env threadId body))
      = [(200, JObj [("response", response)])]
  | Thrown _ =>
      responses (run_trace (chat_thread_route env threadId body))
      = [(500, JObj [("error", JStr "Internal Server Error")])]
  end.
Proof.
  intro Hbody. unfold chat_thread_route, run_get. rewrite Hbody, run_bind_ret_l.
  destruct (callAgent_outcome env (opt_get body "message") threadId)
    as [t [Hnone [[r Hrun] | [msg [Hne Hrun]]]]]; rewrite Hrun; simpl.
  - split; [reflexivity|]. rewrite responses_app, Hnone. reflexivity.
  - split; [reflexivity|]. rewrite responses_app, Hnone. reflexivity.
Qed.

(** X21, instance: the same rate-limited turn, on an existing thread. *)
Lemma chat_thread_route_hides_the_error_witness :
  run_result (chat_thread_route agent_env_rate_limited (JStr "t-1")
                (JObj [("message", JStr "Hi")])) = Returned tt /\
  responses (run_trace (chat_thread_route agent_env_rate_limited (JStr "t-1")
                          (JObj [("message", JStr "Hi")])))
  = [(500, JObj [("error", JStr "Internal Server Error")])].
Proof.
  exact (chat_thread_route_hides_the_error agent_env_rate_limited (JStr "t-1")
           (JObj [("message", JStr "Hi")]) eq_refl).
Defined.

(** X22.  A request without a body ([req.body] undefined or null) makes
    both routes throw a [TypeError] while reading the message, outside
    their [try]: no response is sent and [callAgent] is not called. *)
Theorem routes_throw_without_body (env : agent_environment) (now : Z)
        (threadId body : jsval) :
  nullish body = true ->
  chat_route env now body
  = run_throw (new_TypeError "Cannot read properties of undefined") /\
  chat_thread_route env threadId body
  = run_throw (new_TypeError "Cannot read properties of undefined") /\
  responses (run_trace (chat_route env now body)) = [] /\
  responses (run_trace (chat_thread_route env threadId body)) = [].
Proof.
  intro Hbody. unfold chat_route, chat_thread_route, run_get.
  rewrite Hbody. repeat split.
Qed.

(** X22, instance: no body at all. *)
Lemma routes_throw_without_body_witness :
  chat_route agent_env_answers 1731089501234 JUndefined
  = run_throw (new_TypeError "Cannot read properties of undefined") /\
  chat_thread_route agent_env_answers (JStr "t-1") JUndefined
  = run_throw (new_TypeError "Cannot read properties of undefined") /\
  responses (run_trace (chat_route agent_env_answers 1731089501234 JUndefined)) = [] /\
  responses (run_trace (chat_thread_route agent_env_answers (JStr "t-1") JUndefined)) = [].
Proof.
  apply (routes_throw_without_body agent_env_answers 1731089501234 (JStr "t-1") JUndefined).
  reflexivity.
Defined.

(** X23.  An authentication error (status 401, no code 429) is not retried:
    [callModel] throws it after a single call and without sleeping; when
    the graph hands it on, [callAgent] reports
    ["Authentication error; check API key."]. *)
Theorem authentication_error_is_not_retried (model : @operation jsval) (err : jsval) :
  model 0%nat = Thrown err ->
  is_num (opt_get err "status") 401 = true ->
  is_num (opt_get err "code") 429 = false ->
  callModel model = ([EvInvoke], Thrown err) /\
  forall env query thread_id,
    truthy (apiKey env) = true ->
    setup env = Returned tt ->
    invoke env = Thrown err ->
    run_result (callAgent env query thread_id)
    = Thrown (new_Error "Authentication error; check API key.").
Proof.
  intros Hcall H401 Hcode.
  assert (H429 : is_num (opt_get err "status") 429 = false).
  { unfold is_num in *. destruct (opt_get err "status") as [| | |[z| | |]| | |];
      try discriminate H401.
    apply Z.eqb_eq in H401. subst z. reflexivity. }
  split.
  - unfold callModel, retryWithBackoff, attempts_upto.
    rewrite (retry_loop_run (model_thunk model) 3 0 1 0 (Z.to_nat 3)).
    + simpl. unfold model_thunk. rewrite Hcall. reflexivity.
    + intros i Hi. lia.
    + simpl. lia.
    + simpl. lia.
    + simpl. unfold model_thunk. rewrite Hcall. simpl.
      unfold isRate. rewrite H429, Hcode. reflexivity.
  - intros env query thread_id Hkey Hsetup Hinvoke.
    unfold callAgent, run_perform. rewrite Hkey, Hsetup, Hinvoke. simpl.
    unfold callAgent_catch. simpl. rewrite H429, H401. reflexivity.
Qed.

(** X23, instance: the key is refused at the first call. *)
Lemma authentication_error_is_not_retried_witness :
  callModel (fun _ => Thrown unauthorized_error) = ([EvInvoke], Thrown unauthorized_error) /\
  forall env query thread_id,
    truthy (apiKey env) = true ->
    setup env = Returned tt ->
    invoke env = Thrown unauthorized_error ->
    run_result (callAgent env query thread_id)
    = Thrown (new_Error "Authentication error; check API key.").
Proof.
  apply (authentication_error_is_not_retried (fun _ => Thrown unauthorized_error)
           unauthorized_error); reflexivity.
Defined.

(** X24.  The envelopes can be told apart by their keys: the tool's answer
    has either an [error] field or a [results] field, never both and never
    neither; and it has a [count] field unless it is a search_error. *)
Theorem tool_envelopes_are_distinguishable (env : environment) (query : string)
        (n : option Z) :
  exists v,
    result (vectorSearchTool env query n) = Returned (JSON_stringify v) /\
    has_field v "error" = negb (has_field v "results") /\
    has_field v "count" = negb (is_str (opt_get v "error") "search_error") /\
    has_field v "query" = negb (is_str (opt_get v "error") "empty_db").
Proof.
  rewrite vectorSearchTool_result, vectorSearchTool_body_result.
  destruct (countDocuments env) as [total|err]; [|eexists; repeat split].
  destruct (is_num total 0); [eexists; repeat split|].
  destruct (newEmbeddings env) as [[]|err]; [|eexists; repeat split].
  destruct (newVectorStore env) as [[]|err]; [|eexists; repeat split].
  destruct (result (retryWithBackoff _ 3)) as [rawResults|err]; [|eexists; repeat split].
  destruct (result (normalize_all rawResults)); eexists; repeat split.
Qed.

Lemma resolve_meta_is_metadata (doc meta : jsval) :
  resolve_meta doc = ret meta ->
  nullish doc = false /\ nullish meta = false /\
  forall k, opt_get meta k = opt_get (opt_get doc "metadata") k.
Proof.
  intro Hmeta. destruct (resolve_meta_inv _ _ Hmeta) as [Hd Hm].
  split; [exact Hd|]. split; [exact Hm|].
  rewrite (resolve_meta_value _ Hd) in Hmeta. apply ret_inj in Hmeta. subst meta.
  intro k. apply opt_get_meta.
Qed.

(** X25.  A hit of source ["dummyProjects"] with no structured record at
    all (no [raw] in the metadata or on the document, no [projectName] in
    the metadata) is summarised by its content: ["Project: "], the first 80
    characters of the content, and the location of the metadata when that
    is truthy (and convertible to a string). *)
Theorem project_without_record_uses_excerpt (doc score meta source : jsval)
        (content : string) :
  resolve_meta doc = ret meta ->
  resolve_source doc meta = ret source ->
  is_str source "dummyProjects" = true ->
  nullish (opt_get meta "raw") = true ->
  nullish (opt_get doc "raw") = true ->
  nullish (opt_get meta "projectName") = true ->
  opt_get doc "pageContent" = JStr content ->
  shown (opt_get meta "location") = true ->
  summary_of (doc, score)
  = Returned (JStr ("Project: " ++ substring 0 80 content
                      ++ suffix_text " | Location: " (opt_get meta "location") "")).
Proof.
  intros Hmeta Hsource Hdummy Hraw Hdocraw Hname Hcontent Hshown.
  destruct (resolve_meta_is_metadata _ _ Hmeta) as [Hd [Hm Hsame]].
  assert (Hl : resolve_project doc meta
               = ret {| projectName := JStr (substring 0 80 content);
                        location := opt_get meta "location";
                        price := JUndefined;
                        sequestration := JUndefined;
                        stock := JUndefined |}).
  { unfold resolve_project.
    rewrite !(get_non_nullish _ _ Hm), !(get_non_nullish _ _ Hd).
    rewrite bind_ret_l, get_opt_value, <- Hsame.
    rewrite !coalesce_ret, Hraw.
    rewrite Hdocraw, Hname, bind_ret_l.
    change (get empty_object) with (fun k : string => ret (A:=jsval) JUndefined).
    cbv beta. rewrite !coalesce_ret. cbn [nullish].
    rewrite !bind_ret_l, Hcontent. cbn [call_slice_opt nullish call_slice].
    rewrite !bind_ret_l. reflexivity. }
  assert (Hbranch : takes_project_branch doc
                      {| projectName := JStr (substring 0 80 content);
                         location := opt_get meta "location";
                         price := JUndefined;
                         sequestration := JUndefined;
                         stock := JUndefined |}).
  { exists meta, source. repeat split; try assumption.
    unfold is_project. rewrite Hdummy. reflexivity. }
  rewrite (project_branch_text doc score _ Hbranch).
  - unfold project_text, suffix_text.
    cbn [projectName location price sequestration stock truthy to_string].
    destruct (truthy (opt_get meta "location")); simpl;
      rewrite ?append_empty_r; reflexivity.
  - unfold printable_project. simpl. rewrite Hshown. reflexivity.
Qed.

(** X25, instance: a marketplace page filed under ["dummyProjects"]. *)
Lemma project_without_record_uses_excerpt_witness :
  summary_of (JObj [("pageContent", JStr "Mangrove restoration in Bali");
                    ("metadata", JObj [("source", JStr "dummyProjects");
                                       ("location", JStr "Bali")])], num 1)
  = Returned (JStr "Project: Mangrove restoration in Bali | Location: Bali").
Proof.
  exact (project_without_record_uses_excerpt
           (JObj [("pageContent", JStr "Mangrove restoration in Bali");
                  ("metadata", JObj [("source", JStr "dummyProjects");
                                     ("location", JStr "Bali")])])
           (num 1)
           (JObj [("source", JStr "dummyProjects"); ("location", JStr "Bali")])
           (JStr "dummyProjects")
           "Mangrove restoration in Bali"
           eq_refl eq_refl eq_refl eq_refl eq_refl eq_refl eq_refl eq_refl).
Defined.
